(** * Traffic-Predictor.Ai: the inference core of [src/app/api/predict/route.ts]

    A shallow embedding of the prediction route: decoding of the model
    output ([runInference]), the process-wide session cache ([getSessions])
    and the batch handler ([GET]), followed by the properties the
    specification states about them.

    JavaScript numbers are IEEE 754 binary64 values; they are modelled with
    the standard library's [spec_float] and its comparison, so that NaN,
    the two zeros and the infinities behave as they do in the program.
    Asynchronous calls are modelled by their outcome, a value or a thrown
    reason. The calls of [console.error] are left out, and so are tensors
    of strings. *)

From Stdlib Require Import ZArith Lia Bool Ascii String.
From Stdlib Require Import Floats.SpecFloat.
From stdpp Require Import gmap strings list.

(** ** JavaScript numbers *)

Module JS.

Definition number : Type := spec_float.

Definition prec : Z := 53.
Definition emax : Z := 1024.

Definition NaN : number := S754_nan.

(** [Number(z)] for a BigInt [z], which is also the value of an integer
    literal: the nearest binary64 value, ties to even. *)
Definition of_Z (z : Z) : number := binary_normalize prec emax z 0 false.

Definition add : number -> number -> number := SFadd prec emax.
Definition div : number -> number -> number := SFdiv prec emax.

(** The relational operators; every comparison with NaN is false. *)
Definition gt (a b : number) : bool := SFltb b a.
Definition ge (a b : number) : bool := SFleb b a.
Definition lt (a b : number) : bool := SFltb a b.
Definition le (a b : number) : bool := SFleb a b.

Definition isNaN (a : number) : bool :=
  match a with S754_nan => true | _ => false end.

(** [Math.round]: NaN, the zeros, the infinities and integral values are
    returned unchanged; any other [x] goes to [floor (x + 1/2)], computed
    exactly, with the sign of [x] kept on a zero result. *)
Definition Math_round (x : number) : number :=
  match x with
  | S754_finite s m e =>
      if (0 <=? e)%Z then x
      else
        let n := ((2 * cond_Zopp s (Zpos m) + 2 ^ (- e)) / 2 ^ (1 - e))%Z in
        if (n =? 0)%Z then S754_zero s else of_Z n
  | _ => x
  end.

(** [Math.min] and [Math.max] of two arguments: NaN if either is NaN,
    and [-0] counts as smaller than [+0]. *)
Definition Math_min (a b : number) : number :=
  match SFcompare a b with
  | None => NaN
  | Some Lt => a
  | Some Gt => b
  | Some Eq => match a with S754_zero false => b | _ => a end
  end.

Definition Math_max (a b : number) : number :=
  match SFcompare a b with
  | None => NaN
  | Some Gt => a
  | Some Lt => b
  | Some Eq => match a with S754_zero true => b | _ => a end
  end.

(** Conversion of a binary64 value to binary32 and back, as storing it in
    a [Float32Array] does. *)
Definition fround (x : number) : number :=
  match x with
  | S754_finite s m e =>
      match binary_normalize 24 128 (cond_Zopp s (Zpos m)) e s with
      | S754_finite s' m' e' =>
          binary_normalize prec emax (cond_Zopp s' (Zpos m')) e' s'
      | y => y
      end
  | _ => x
  end.

End JS.

Abbreviation number := JS.number.

Definition zero : number := JS.of_Z 0.
Definition one : number := JS.of_Z 1.
Definition two : number := JS.of_Z 2.

(** ** Thrown values and fallible computations *)

(** A thrown value is an [Error] object (name and message), [null],
    [undefined], or some other value, of which only its string conversion
    matters here. *)
Inductive thrown : Type :=
  | ErrorObject (name message : string)
  | OtherValue (text : string)
  | NullValue
  | UndefinedValue.

Inductive result (A : Type) : Type :=
  | Ok (a : A)
  | Throw (e : thrown).
Arguments Ok {A} a.
Arguments Throw {A} e.

Definition bind {A B} (c : result A) (k : A -> result B) : result B :=
  match c with
  | Ok a => k a
  | Throw e => Throw e
  end.

Definition try_catch {A} (body : result A) (handler : thrown -> result A)
  : result A :=
  match body with
  | Ok a => Ok a
  | Throw e => handler e
  end.

Notation "'let!' x ':=' c 'in' k" := (bind c (fun x => k))
  (at level 10, x name, c at level 100, k at level 200).

(** ** Tensors and inference sessions (onnxruntime-web) *)

(** The [data] of a tensor is a typed array: of numbers, or of BigInts for
    the 64-bit integer element types. *)
Inductive TensorData : Type :=
  | NumberData (l : list number)
  | BigIntData (l : list Z).

Record Tensor : Type := mkTensor {
  type : string;
  data : TensorData;
  dims : list Z
}.

Definition data_length (d : TensorData) : nat :=
  match d with
  | NumberData l => length l
  | BigIntData l => length l
  end.

(** [new onnx.Tensor(type, data, dims)] throws when the number of elements
    of [data] is not the product of [dims]. *)
Definition new_Tensor (ty : string) (d : TensorData) (ds : list Z)
  : result Tensor :=
  if (foldr Z.mul 1 ds =? Z.of_nat (data_length d))%Z
  then Ok (mkTensor ty d ds)
  else Throw (ErrorObject "Error" "Tensor's size does not match data length.").

Definition Float32Array_from (l : list number) : TensorData :=
  NumberData (map JS.fround l).

Record InferenceSession : Type := mkSession {
  inputNames : list string;
  outputNames : list string;
  run : gmap string Tensor -> result (gmap string Tensor)
}.

(** A property key computed from [names[0]]: the string ["undefined"] when
    the array is empty. *)
Definition first_name (names : list string) : string :=
  default "undefined" (names !! 0%nat).

(** ** [runInference] *)

Record InferenceResult : Type := mkResult {
  congestion : number;
  probability : number
}.

(** [Number(outputData[idx])]; an index out of range reads [undefined],
    which converts to NaN. *)
Definition getVal (outputData : TensorData) (idx : nat) : number :=
  match outputData with
  | NumberData l => default JS.NaN (l !! idx)
  | BigIntData l => default JS.NaN (JS.of_Z <$> l !! idx)
  end.

(** One iteration of the [for] loop over [i]. *)
Definition argmax_step (outputData : TensorData)
    (acc : nat * number) (i : nat) : nat * number :=
  let val := getVal outputData i in
  if JS.gt val (snd acc) then (i, val) else acc.

Definition argmax (outputData : TensorData) : nat * number :=
  fold_left (argmax_step outputData)
    (seq 1 (data_length outputData - 1)) (0%nat, getVal outputData 0).

Definition decode (outputData : TensorData) : InferenceResult :=
  if (3 <=? data_length outputData)%nat then
    let '(maxIdx, maxVal) := argmax outputData in
    {| congestion := JS.of_Z (Z.of_nat maxIdx); probability := maxVal |}
  else
    let val := getVal outputData 0 in
    let congestion :=
      JS.Math_max zero (JS.Math_min two (JS.Math_round val)) in
    {| congestion := congestion; probability := one |}.

Definition fallback : InferenceResult :=
  {| congestion := zero; probability := zero |}.

(** The first statements of the [try] block, down to [outputData]: the
    feature vector becomes a tensor of shape [1, 8], the session runs on
    it, and the data of its first output is read. *)
Definition run_model (session : InferenceSession) (inputData : list number)
  : result TensorData :=
  let! inputTensor :=
    new_Tensor "float32" (Float32Array_from inputData) [1; 8]%Z in
  let inputName := first_name (inputNames session) in
  let feeds : gmap string Tensor := {[ inputName := inputTensor ]} in
  let! output := run session feeds in
  let outputName := first_name (outputNames session) in
  match output !! outputName with
  | Some outputTensor => Ok (data outputTensor)
  | None =>
      Throw (ErrorObject "TypeError"
               "Cannot read properties of undefined (reading 'data')")
  end.

(** The body of the [try] block. *)
Definition runInference_try (session : InferenceSession)
    (inputData : list number) : result InferenceResult :=
  let! outputData := run_model session inputData in
  Ok (decode outputData).

Definition runInference (session : InferenceSession)
    (inputData : list number) : result InferenceResult :=
  try_catch (runInference_try session inputData) (fun _ => Ok fallback).

(** *** The data model of a result

    Modelled from the spec: the type [CongestionLevel] of [@/lib/types],
    which is not part of the sources at hand; the specification gives it as
    the ordinals Low = 0, Moderate = 1, High = 2, and a probability as a
    number between 0 and 1. *)
Inductive CongestionLevel : Type := Low | Moderate | High.

Definition ordinal (l : CongestionLevel) : nat :=
  match l with
  | Low => 0
  | Moderate => 1
  | High => 2
  end.

Definition level_number (l : CongestionLevel) : number :=
  JS.of_Z (Z.of_nat (ordinal l)).

(** A result whose congestion is a level by construction. *)
Record ModelInferenceResult : Type := mkModelResult {
  level : CongestionLevel;
  confidence : number
}.

Definition to_result (r : ModelInferenceResult) : InferenceResult :=
  {| congestion := level_number (level r); probability := confidence r |}.

Definition is_CongestionLevel (c : number) : Prop :=
  c = zero \/ c = one \/ c = two.

Definition is_probability (p : number) : Prop :=
  JS.le zero p = true /\ JS.le p one = true.

Definition well_formed (r : InferenceResult) : Prop :=
  is_CongestionLevel (congestion r) /\ is_probability (probability r).

(** The outputs on which a run that succeeds gives a well-formed result:
    fewer than three values, the first of them not NaN; or at least three
    values, the first of them not NaN, with, at one of the indices 0, 1
    and 2, a value between 0 and 1 that no value of the output exceeds. *)
Definition guarded_output (outputData : TensorData) : Prop :=
  ((data_length outputData < 3)%nat
   /\ JS.isNaN (getVal outputData 0) = false)
  \/ ((3 <= data_length outputData)%nat
      /\ JS.isNaN (getVal outputData 0) = false
      /\ exists i, (i < 3)%nat
           /\ is_probability (getVal outputData i)
           /\ forall j, (j < data_length outputData)%nat ->
                JS.gt (getVal outputData j) (getVal outputData i) = false).

(** ** The session cache: [getSessions] *)

Record Sessions : Type := mkSessions {
  stage1 : option InferenceSession;
  stage2 : option InferenceSession
}.

(** The initial value of the module-level variable [sessions]. *)
Definition no_sessions : Sessions := {| stage1 := None; stage2 := None |}.

Definition Buffer : Type := list Byte.byte.

(** What the process does to the model artifacts, in program order. *)
Inductive io_event : Type :=
  | ReadFile (path : string)
  | CreateSession (buffer : Buffer).

(** The artifact store as [getSessions] sees it: the working directory, the
    outcome of reading a file and of building a session from its bytes,
    and, for each [Promise.all], whether its second promise settles before
    its first. *)
Record ModelStore : Type := mkStore {
  cwd : string;
  readFile : string -> result Buffer;
  create : Buffer -> result InferenceSession;
  reads_second_first : bool;
  creates_second_first : bool
}.

(** The segments of a path between its separators, [current] being the
    segment read so far. *)
Fixpoint path_segments (s current : string) : list string :=
  match s with
  | String c rest =>
      if Ascii.eqb c "/" then current :: path_segments rest ""
      else path_segments rest (current ++ String c "")%string
  | EmptyString => [current]
  end.

(** Empty segments and [.] are dropped and [..] removes the segment before
    it; above the start of a relative path [..] is kept. The segments come
    out in reverse. *)
Definition resolve_segment (absolute : bool) (stack : list string)
    (segment : string) : list string :=
  if String.eqb segment "" || String.eqb segment "." then stack
  else if String.eqb segment ".." then
    match stack with
    | top :: below =>
        if String.eqb top ".." then segment :: stack else below
    | [] => if absolute then [] else [segment]
    end
  else segment :: stack.

Fixpoint ends_with_separator (s : string) : bool :=
  match s with
  | String c EmptyString => Ascii.eqb c "/"
  | String _ rest => ends_with_separator rest
  | EmptyString => false
  end.

(** [path.normalize], for POSIX paths. *)
Definition path_normalize (path : string) : string :=
  if String.eqb path "" then "."
  else
    let absolute :=
      match path with String c _ => Ascii.eqb c "/" | EmptyString => false end in
    let trailing := ends_with_separator path in
    let body :=
      String.concat "/"
        (rev (fold_left (resolve_segment absolute)
                (path_segments path "") [])) in
    if String.eqb body "" then
      if absolute then "/" else if trailing then "./" else "."
    else
      let body := if trailing then (body ++ "/")%string else body in
      if absolute then ("/" ++ body)%string else body.

(** [path.join]: the parts that are not empty, joined by the separator and
    normalised. *)
Definition path_join (parts : list string) : string :=
  match List.filter (fun part => negb (String.eqb part "")) parts with
  | [] => "."
  | nonempty => path_normalize (String.concat "/" nonempty)
  end.

Definition modelPath1 (store : ModelStore) : string :=
  path_join [cwd store; "public"; "models"; "model_stage1.onnx"].

Definition modelPath2 (store : ModelStore) : string :=
  path_join [cwd store; "public"; "models"; "model_stage2.onnx"].

(** [await Promise.all([p1, p2])]: both promises have been started; the
    result is both values, or the reason of the promise that rejects
    first. *)
Definition Promise_all2 {A B} (second_first : bool)
    (p1 : result A) (p2 : result B) : result (A * B) :=
  match p1, p2 with
  | Ok a, Ok b => Ok (a, b)
  | Throw e, Ok _ => Throw e
  | Ok _, Throw e => Throw e
  | Throw e1, Throw e2 => Throw (if second_first then e2 else e1)
  end.

(** Computations that read and write the module variable [sessions] and
    touch the artifact store. *)
Definition M (A : Type) : Type :=
  Sessions -> result A * Sessions * list io_event.

Definition ret {A} (a : A) : M A := fun s => (Ok a, s, []).

Definition lift {A} (c : result A) : M A := fun s => (c, s, []).

Definition bindM {A B} (c : M A) (k : A -> M B) : M B :=
  fun s =>
    let '(r, s1, ev1) := c s in
    match r with
    | Ok a => let '(r2, s2, ev2) := k a s1 in (r2, s2, ev1 ++ ev2)
    | Throw e => (Throw e, s1, ev1)
    end.

Notation "'let*' x ':=' c 'in' k" := (bindM c (fun x => k))
  (at level 10, x name, c at level 100, k at level 200).

(** The body of the [try] block of [getSessions]. *)
Definition getSessions_try (store : ModelStore) : M Sessions :=
  fun sessions =>
    let modelPath1 := modelPath1 store in
    let modelPath2 := modelPath2 store in
    let reads := [ReadFile modelPath1; ReadFile modelPath2] in
    match Promise_all2 (reads_second_first store)
            (readFile store modelPath1) (readFile store modelPath2) with
    | Throw e => (Throw e, sessions, reads)
    | Ok (buffer1, buffer2) =>
        let creates := [CreateSession buffer1; CreateSession buffer2] in
        match Promise_all2 (creates_second_first store)
                (create store buffer1) (create store buffer2) with
        | Throw e => (Throw e, sessions, reads ++ creates)
        | Ok (session1, session2) =>
            let sessions' :=
              {| stage1 := Some session1; stage2 := Some session2 |} in
            (Ok sessions', sessions', reads ++ creates)
        end
    end.

(** The [catch] block of [getSessions] logs and rethrows, so a failure
    leaves with the reason it came with. *)
Definition getSessions (store : ModelStore) : M Sessions :=
  fun sessions =>
    match stage1 sessions, stage2 sessions with
    | Some _, Some _ => (Ok sessions, sessions, [])
    | _, _ => getSessions_try store sessions
    end.

(** ** The request handler: [GET] *)

Module Location.
Record t : Type := mk {
  name : string;
  latitude : number;
  longitude : number
}.
End Location.

Module WeatherData.
Record t : Type := mk {
  temperature_2m : number;
  precipitation : number;
  rain : number;
  wind_speed_10m : number
}.
End WeatherData.

Module TimeInfo.
Record t : Type := mk {
  hour : number;
  day : number
}.
End TimeInfo.

Module PredictionResult.
Record t : Type := mk {
  location : string;
  latitude : number;
  longitude : number;
  congestion : number;
  congestionLabel : option string;
  probability : number
}.
End PredictionResult.

Module BatchPredictionResponse.
Record t : Type := mk {
  predictions : list PredictionResult.t;
  weather : WeatherData.t;
  timestamp : string;
  hour : number;
  day : number
}.
End BatchPredictionResponse.

Inductive ResponseBody : Type :=
  | Batch (response : BatchPredictionResponse.t)
  | Failure (error details : string).

Record NextResponse : Type := mkResponse {
  status : nat;
  body : ResponseBody
}.

(** The query string, as the ordered list of its name and value pairs. *)
Record NextRequest : Type := mkRequest {
  searchParams : list (string * string)
}.

(** [searchParams.get(name)]: the first value under [name], else [null]. *)
Definition searchParams_get (request : NextRequest) (name : string)
  : option string :=
  snd <$> List.find (fun kv => String.eqb (fst kv) name) (searchParams request).

(** *** [parseInt] *)

(** The white space and line terminator characters of one byte. *)
Definition is_whitespace (c : ascii) : bool :=
  let n := nat_of_ascii c in
  ((9 <=? n) && (n <=? 13) || (n =? 32))%nat.

(** The other white space and line terminator characters, as the bytes of
    their UTF-8 encoding: U+00A0 on two bytes; U+1680, U+2000 to U+200A,
    U+2028, U+2029, U+202F, U+205F, U+3000 and U+FEFF on three. *)
Definition is_lead_byte (c : ascii) : bool :=
  let n := nat_of_ascii c in
  ((n =? 194) || (n =? 225) || (n =? 226) || (n =? 227) || (n =? 239))%nat.

Definition is_whitespace2 (c1 c2 : ascii) : bool :=
  ((nat_of_ascii c1 =? 194) && (nat_of_ascii c2 =? 160))%nat.

Definition is_whitespace3 (c1 c2 c3 : ascii) : bool :=
  let b1 := nat_of_ascii c1 in
  let b2 := nat_of_ascii c2 in
  let b3 := nat_of_ascii c3 in
  ((b1 =? 225) && (b2 =? 154) && (b3 =? 128)
   || (b1 =? 226) && (b2 =? 128)
      && ((128 <=? b3) && (b3 <=? 138)
          || (b3 =? 168) || (b3 =? 169) || (b3 =? 175))
   || (b1 =? 226) && (b2 =? 129) && (b3 =? 159)
   || (b1 =? 227) && (b2 =? 128) && (b3 =? 128)
   || (b1 =? 239) && (b2 =? 187) && (b3 =? 191))%nat.

(** The string without its leading white space; a string is held as the
    bytes of its UTF-8 encoding. *)
Fixpoint trim_start (s : string) : string :=
  match s with
  | String c1 rest1 =>
      if is_whitespace c1 then trim_start rest1
      else if is_lead_byte c1 then
        match rest1 with
        | String c2 rest2 =>
            if is_whitespace2 c1 c2 then trim_start rest2
            else
              match rest2 with
              | String c3 rest3 =>
                  if is_whitespace3 c1 c2 c3 then trim_start rest3 else s
              | EmptyString => s
              end
        | EmptyString => s
        end
      else s
  | EmptyString => s
  end.

Definition digit_value (radix : Z) (c : ascii) : option Z :=
  let n := Z.of_nat (nat_of_ascii c) in
  let v :=
    if ((48 <=? n) && (n <=? 57))%Z then Some (n - 48)%Z
    else if ((97 <=? n) && (n <=? 122))%Z then Some (n - 87)%Z
    else if ((65 <=? n) && (n <=? 90))%Z then Some (n - 55)%Z
    else None in
  match v with
  | Some d => if (d <? radix)%Z then Some d else None
  | None => None
  end.

(** The value of the longest prefix of [s] made of digits of [radix],
    [acc] being the value of the digits already read, if any. *)
Fixpoint parse_digits (radix : Z) (s : string) (acc : option Z) : option Z :=
  match s with
  | String c rest =>
      match digit_value radix c with
      | Some d => parse_digits radix rest (Some (radix * default 0%Z acc + d)%Z)
      | None => acc
      end
  | EmptyString => acc
  end.

(** An optional sign in front of the digits. *)
Definition parse_sign (s : string) : bool * string :=
  match s with
  | String "-"%char rest => (true, rest)
  | String "+"%char rest => (false, rest)
  | _ => (false, s)
  end.

(** An optional [0x] or [0X] in front of the digits selects radix 16. *)
Definition parse_radix (s : string) : Z * string :=
  match s with
  | String "0"%char (String "x"%char rest) => (16%Z, rest)
  | String "0"%char (String "X"%char rest) => (16%Z, rest)
  | _ => (10%Z, s)
  end.

(** [parseInt(s)] without a radix: leading white space is skipped, then an
    optional sign, then an optional radix prefix, then the digits; NaN when
    no digit is found. *)
Definition parseInt (s : string) : number :=
  let s := trim_start s in
  let '(negative, s) := parse_sign s in
  let '(radix, s) := parse_radix s in
  match parse_digits radix s None with
  | None => JS.NaN
  | Some v => if negative then SFopp (JS.of_Z v) else JS.of_Z v
  end.

(** The string of the decimal digits [ds] and the integer it denotes. *)
Definition digit_char (d : nat) : ascii := ascii_of_nat (48 + d).

Definition digits_string (ds : list nat) : string :=
  foldr (fun d s => String (digit_char d) s) EmptyString ds.

Definition digits_value (ds : list nat) : Z :=
  fold_left (fun acc d => (10 * acc + Z.of_nat d)%Z) ds 0%Z.

(** A string is truthy when it is not empty; [null] is falsy. *)
Definition truthy (s : option string) : bool :=
  match s with
  | Some s => negb (String.eqb s "")
  | None => false
  end.

(** [custom ? parseInt(custom) : current] *)
Definition resolve (custom : option string) (current : number) : number :=
  match custom with
  | Some s => if truthy custom then parseInt s else current
  | None => current
  end.

(** *** The collaborators of the handler *)

(** Modelled from the spec: the table [CONGESTION_LABELS] of [@/lib/types],
    which is not part of the sources at hand; the specification names the
    levels Low = 0, Moderate = 1 and High = 2. Any other key reads
    [undefined]. *)
Definition CONGESTION_LABELS (c : number) : option string :=
  if SFeqb c zero then Some "Low"
  else if SFeqb c one then Some "Moderate"
  else if SFeqb c two then Some "High"
  else None.

(** What the handler imports or reads from its surroundings:
    [cameraLocations] of [@/lib/locations], [getCurrentTimeInfo] and
    [getWeatherForTime] of [@/lib/weather], the clock behind [new Date()]
    and the artifact store. *)
Record Environment : Type := mkEnvironment {
  cameraLocations : list Location.t;
  getCurrentTimeInfo : result TimeInfo.t;
  getWeatherForTime : number -> number -> number -> number -> result WeatherData.t;
  now_ISOString : string;
  store : ModelStore
}.

(** *** The loop body *)

Definition inputData_of (location : Location.t) (hour day : number)
    (weather : WeatherData.t) : list number :=
  [ Location.latitude location;
    Location.longitude location;
    hour;
    day;
    WeatherData.temperature_2m weather;
    WeatherData.precipitation weather;
    WeatherData.rain weather;
    WeatherData.wind_speed_10m weather ].

(** [results], after the two conditional [push]es. *)
Definition run_models (stage1 stage2 : option InferenceSession)
    (inputData : list number) : result (list InferenceResult) :=
  let results := [] in
  let! results :=
    match stage1 with
    | Some s => let! r := runInference s inputData in Ok (results ++ [r])
    | None => Ok results
    end in
  let! results :=
    match stage2 with
    | Some s => let! r := runInference s inputData in Ok (results ++ [r])
    | None => Ok results
    end in
  Ok results.

Definition max_congestion (prev current : InferenceResult) : InferenceResult :=
  if JS.gt (congestion current) (congestion prev) then current else prev.

(** [results.reduce(f)] without an initial value. *)
Definition reduce (f : InferenceResult -> InferenceResult -> InferenceResult)
    (results : list InferenceResult) : result InferenceResult :=
  match results with
  | first :: rest => Ok (fold_left f rest first)
  | [] =>
      Throw (ErrorObject "TypeError"
               "Reduce of empty array with no initial value")
  end.

Definition predict_location (stage1 stage2 : option InferenceSession)
    (hour day : number) (weather : WeatherData.t) (location : Location.t)
  : result PredictionResult.t :=
  let inputData := inputData_of location hour day weather in
  let! results := run_models stage1 stage2 inputData in
  if (length results =? 0)%nat
  then Throw (ErrorObject "Error" "No models loaded")
  else
    let! finalResult := reduce max_congestion results in
    Ok {| PredictionResult.location := Location.name location;
          PredictionResult.latitude := Location.latitude location;
          PredictionResult.longitude := Location.longitude location;
          PredictionResult.congestion := congestion finalResult;
          PredictionResult.congestionLabel :=
            CONGESTION_LABELS (congestion finalResult);
          PredictionResult.probability := probability finalResult |}.

(** The [for ... of] loop, [predictions] being the array built so far. *)
Fixpoint predict_all (stage1 stage2 : option InferenceSession)
    (hour day : number) (weather : WeatherData.t)
    (locations : list Location.t) (predictions : list PredictionResult.t)
  : result (list PredictionResult.t) :=
  match locations with
  | location :: rest =>
      let! p := predict_location stage1 stage2 hour day weather location in
      predict_all stage1 stage2 hour day weather rest (predictions ++ [p])
  | [] => Ok predictions
  end.

(** *** The handler *)

Definition center (coordinate : Location.t -> number)
    (locations : list Location.t) : number :=
  JS.div
    (fold_left (fun sum loc => JS.add sum (coordinate loc)) locations zero)
    (JS.of_Z (Z.of_nat (length locations))).

(** The body of the [try] block. *)
Definition GET_try (env : Environment) (request : NextRequest)
  : M BatchPredictionResponse.t :=
  let customHour := searchParams_get request "hour" in
  let customDay := searchParams_get request "day" in
  let* timeInfo := lift (getCurrentTimeInfo env) in
  let hour := resolve customHour (TimeInfo.hour timeInfo) in
  let day := resolve customDay (TimeInfo.day timeInfo) in
  let centerLat := center Location.latitude (cameraLocations env) in
  let centerLng := center Location.longitude (cameraLocations env) in
  let* weather := lift (getWeatherForTime env centerLat centerLng hour day) in
  let* loaded := getSessions (store env) in
  let* predictions :=
    lift (predict_all (stage1 loaded) (stage2 loaded) hour day weather
            (cameraLocations env) []) in
  ret {| BatchPredictionResponse.predictions := predictions;
         BatchPredictionResponse.weather := weather;
         BatchPredictionResponse.timestamp := now_ISOString env;
         BatchPredictionResponse.hour := hour;
         BatchPredictionResponse.day := day |}.

(** [String(err)] *)
Definition String_of (err : thrown) : string :=
  match err with
  | ErrorObject name message =>
      if String.eqb message "" then name
      else if String.eqb name "" then message
      else name ++ ": " ++ message
  | OtherValue text => text
  | NullValue => "null"
  | UndefinedValue => "undefined"
  end.

(** [err.message || String(err)]: reading a property of [null] or of
    [undefined] throws a [TypeError]. *)
Definition details_of (err : thrown) : result string :=
  match err with
  | ErrorObject _ message =>
      Ok (if String.eqb message "" then String_of err else message)
  | OtherValue _ => Ok (String_of err)
  | NullValue =>
      Throw (ErrorObject "TypeError"
               "Cannot read properties of null (reading 'message')")
  | UndefinedValue =>
      Throw (ErrorObject "TypeError"
               "Cannot read properties of undefined (reading 'message')")
  end.

(** The handler: the [try] block and its [catch]. What the [catch] block
    itself throws leaves the handler, which then returns no response. *)
Definition GET (env : Environment) (request : NextRequest)
    (sessions : Sessions) : result NextResponse * Sessions * list io_event :=
  let '(outcome, sessions', events) := GET_try env request sessions in
  match outcome with
  | Ok response =>
      (Ok {| status := 200; body := Batch response |}, sessions', events)
  | Throw err =>
      (let! details := details_of err in
       Ok {| status := 500;
             body := Failure "Failed to generate predictions" details |},
       sessions', events)
  end.



(** ** Concrete sessions, stores and environments

    Small instances on which the statements below are exercised. *)

(** A session that answers every run with the output [d] under the name
    ["label"]. *)
Definition constant_session (d : TensorData) : InferenceSession :=
  {| inputNames := ["float_input"];
     outputNames := ["label"];
     run := fun _ => Ok {[ "label" := mkTensor "float32" d [1%Z] ]} |}.

(** A session whose every run is rejected. *)
Definition failing_session : InferenceSession :=
  {| inputNames := ["float_input"];
     outputNames := ["label"];
     run := fun _ => Throw (ErrorObject "Error" "failed to call OrtRun()") |}.

(** The binary64 value nearest to [a / b]. *)
Definition ratio (a b : Z) : number := JS.div (JS.of_Z a) (JS.of_Z b).

Definition healthy_store : ModelStore :=
  {| cwd := "/app";
     readFile := fun _ => Ok [];
     create := fun _ => Ok (constant_session (BigIntData [2%Z]));
     reads_second_first := false;
     creates_second_first := false |}.

(** A store whose files cannot be read. *)
Definition broken_store : ModelStore :=
  {| cwd := "/app";
     readFile := fun _ => Throw (ErrorObject "Error" "ENOENT: no such file or directory");
     create := fun _ => Ok (constant_session (BigIntData [2%Z]));
     reads_second_first := false;
     creates_second_first := false |}.

Definition sample_weather : WeatherData.t :=
  WeatherData.mk (JS.of_Z 21) zero zero (JS.of_Z 7).

Definition sample_environment (st : ModelStore) : Environment :=
  {| cameraLocations :=
       [ Location.mk "Times Square" (ratio 40758 1000) (ratio (-73985) 1000);
         Location.mk "Brooklyn Bridge" (ratio 40706 1000) (ratio (-73997) 1000) ];
     getCurrentTimeInfo := Ok (TimeInfo.mk (JS.of_Z 9) (JS.of_Z 3));
     getWeatherForTime := fun _ _ _ _ => Ok sample_weather;
     now_ISOString := "2024-01-01T09:00:00.000Z";
     store := st |}.

Definition sample_location : Location.t :=
  Location.mk "Times Square" (ratio 40758 1000) (ratio (-73985) 1000).

Definition sample_inputData : list number :=
  inputData_of sample_location (JS.of_Z 9) (JS.of_Z 3) sample_weather.

(** A session that answers a run with the tensor it was fed. *)
Definition echo_session : InferenceSession :=
  {| inputNames := ["input"];
     outputNames := ["input"];
     run := fun feeds => Ok feeds |}.

(** A store whose two artifacts differ in their first byte; the artifact of
    stage 1 gives [session1] and the other one [session2]. *)
Definition staged_store (session1 session2 : InferenceSession) : ModelStore :=
  {| cwd := "/app";
     readFile := fun path =>
       Ok (if String.eqb path "/app/public/models/model_stage1.onnx"
           then [Byte.x01] else [Byte.x02]);
     create := fun buffer =>
       Ok (match buffer with
           | Byte.x01 :: _ => session1
           | _ => session2
           end);
     reads_second_first := false;
     creates_second_first := false |}.

(** A store whose artifacts are read and then refused with [reason]. *)
Definition rejecting_store (reason : thrown) : ModelStore :=
  {| cwd := "/app";
     readFile := fun _ => Ok [];
     create := fun _ => Throw reason;
     reads_second_first := false;
     creates_second_first := false |}.

(** The sample environment with a weather provider that rejects with
    [reason]. *)
Definition failing_weather_environment (reason : thrown) : Environment :=
  {| cameraLocations := cameraLocations (sample_environment healthy_store);
     getCurrentTimeInfo := Ok (TimeInfo.mk (JS.of_Z 9) (JS.of_Z 3));
     getWeatherForTime := fun _ _ _ _ => Throw reason;
     now_ISOString := "2024-01-01T09:00:00.000Z";
     store := healthy_store |}.

(** ** A process serving requests

    The module variable [sessions] lives as long as the process: requests
    handled one after the other each start from the cache the previous one
    left. Each request has its outcome, a response or what the handler
    threw. *)
Fixpoint serve (requests : list (Environment * NextRequest))
    (sessions : Sessions)
  : list (result NextResponse) * Sessions * list io_event :=
  match requests with
  | (env, request) :: rest =>
      let '(response, sessions1, events1) := GET env request sessions in
      let '(responses, sessions2, events2) := serve rest sessions1 in
      (response :: responses, sessions2, events1 ++ events2)
  | [] => ([], sessions, [])
  end.

(** A store whose files can be read but hold no valid model. *)
Definition corrupt_store : ModelStore :=
  {| cwd := "/app";
     readFile := fun _ => Ok [];
     create := fun _ => Throw (ErrorObject "Error" "failed to load model");
     reads_second_first := false;
     creates_second_first := false |}.

(** * Properties *)

(** ** The order of numbers *)

Ltac order_cases :=
  repeat match goal with
  | |- context [ Pos.compare_cont Eq ?a ?b ] =>
      change (Pos.compare_cont Eq a b) with (Pos.compare a b)
  | H : context [ Pos.compare_cont Eq ?a ?b ] |- _ =>
      change (Pos.compare_cont Eq a b) with (Pos.compare a b) in H
  end;
  repeat match goal with
  | H : context [ Z.compare ?a ?b ] |- _ =>
      destruct (Z.compare_spec a b); simpl in H; try discriminate H
  | H : context [ Pos.compare ?a ?b ] |- _ =>
      destruct (Pos.compare_spec a b); simpl in H; try discriminate H
  | |- context [ Z.compare ?a ?b ] =>
      destruct (Z.compare_spec a b); simpl
  | |- context [ Pos.compare ?a ?b ] =>
      destruct (Pos.compare_spec a b); simpl
  end;
  try reflexivity; try discriminate; try lia.

Ltac number_cases x :=
  let s := fresh "s" in
  destruct x as [s|s| |s ? ?]; try destruct s.

Lemma gt_irrefl (x : number) : JS.gt x x = false.
Proof.
  unfold JS.gt, SFltb. number_cases x; simpl; try reflexivity; order_cases.
Qed.

(** If [y] does not exceed [m] and [x] does, then [y] neither exceeds nor
    reaches [x]. *)
Lemma gt_chain (y m x : number) :
  JS.gt y m = false -> JS.gt x m = true ->
  JS.gt y x = false /\ JS.ge y x = false.
Proof.
  unfold JS.gt, JS.ge, SFltb, SFleb.
  number_cases y; number_cases m; number_cases x;
    simpl; intros H1 H2; try discriminate; try (split; reflexivity);
    split; order_cases.
Qed.

(** Away from NaN the order is total. *)
Lemma not_gt_le (y x : number) :
  JS.isNaN y = false -> JS.isNaN x = false ->
  JS.gt y x = false -> JS.le y x = true.
Proof.
  unfold JS.gt, JS.le, SFltb, SFleb.
  number_cases y; number_cases x;
    simpl; intros H1 H2 H3; try discriminate; try reflexivity; order_cases.
Qed.

Lemma not_ge_lt (y x : number) :
  JS.isNaN y = false -> JS.isNaN x = false ->
  JS.ge y x = false -> JS.lt y x = true.
Proof.
  unfold JS.ge, JS.lt, SFltb, SFleb.
  number_cases y; number_cases x;
    simpl; intros H1 H2 H3; try discriminate; try reflexivity; order_cases.
Qed.

Lemma gt_not_NaN (x m : number) :
  JS.gt x m = true -> JS.isNaN x = false /\ JS.isNaN m = false.
Proof.
  unfold JS.gt, SFltb.
  number_cases x; number_cases m; simpl; intros H;
    try discriminate H; split; reflexivity.
Qed.

Lemma le_not_NaN (x y : number) :
  JS.le x y = true -> JS.isNaN x = false /\ JS.isNaN y = false.
Proof.
  unfold JS.le, SFleb.
  number_cases x; number_cases y; simpl; intros H;
    try discriminate H; split; reflexivity.
Qed.

Lemma lt_not_le (x y : number) : JS.lt x y = true -> JS.le y x = false.
Proof.
  unfold JS.lt, JS.le, SFltb, SFleb.
  number_cases x; number_cases y; simpl; intros H;
    try discriminate H; try reflexivity; order_cases.
Qed.

Lemma le_trans (x y z : number) :
  JS.le x y = true -> JS.le y z = true -> JS.le x z = true.
Proof.
  unfold JS.le, SFleb.
  number_cases x; number_cases y; number_cases z;
    simpl; intros H1 H2; try discriminate; try reflexivity; order_cases.
Qed.

Lemma le_refl (x : number) : JS.isNaN x = false -> JS.le x x = true.
Proof.
  intros H. apply not_gt_le; [exact H | exact H | apply gt_irrefl].
Qed.

Lemma lt_le (x y : number) : JS.lt x y = true -> JS.le x y = true.
Proof.
  unfold JS.lt, JS.le, SFltb, SFleb.
  number_cases x; number_cases y; simpl; intros H;
    try discriminate H; try reflexivity; order_cases.
Qed.

Lemma isNaN_eq (x : number) : JS.isNaN x = true -> x = JS.NaN.
Proof. destruct x; intros H; try discriminate H; reflexivity. Qed.

(** ** Scanning for the first maximum *)

Section FirstMaximum.

Context {A : Type} (key : A -> number).

Let keep (prev current : A) : A :=
  if JS.gt (key current) (key prev) then current else prev.

(** A left fold that replaces its accumulator only by a strictly greater
    element ends on an element that nothing in the list exceeds and that
    nothing before it reaches. *)
Lemma fold_first_max (l : list A) (a : A) :
  exists k : nat,
    (a :: l) !! k = Some (fold_left keep l a)
    /\ (forall j y, (a :: l) !! j = Some y ->
          JS.gt (key y) (key (fold_left keep l a)) = false)
    /\ (forall j y, (j < k)%nat -> (a :: l) !! j = Some y ->
          JS.ge (key y) (key (fold_left keep l a)) = false).
Proof.
  induction l as [|x l IH] using rev_ind.
  - exists 0%nat. simpl. split; [reflexivity|]. split.
    + intros [|j] y Hy; simpl in Hy; [|discriminate].
      injection Hy as <-. apply gt_irrefl.
    + intros j y Hj. lia.
  - destruct IH as (k & Hk & Hmax & Hfirst).
    rewrite fold_left_app. simpl. set (r := fold_left keep l a) in *.
    assert (Hlen : (k < length (a :: l))%nat) by (eapply lookup_lt_Some; eauto).
    change (keep r x) with (if JS.gt (key x) (key r) then x else r).
    destruct (JS.gt (key x) (key r)) eqn:Hx.
    + exists (length (a :: l)). split.
      * change (a :: l ++ [x]) with ((a :: l) ++ [x]).
        rewrite lookup_app_r by lia. rewrite Nat.sub_diag. reflexivity.
      * split.
        -- intros j y Hy. change (a :: l ++ [x]) with ((a :: l) ++ [x]) in Hy.
           apply lookup_app_Some in Hy as [Hy | [_ Hy]].
           ++ eapply gt_chain; eauto.
           ++ destruct (j - length (a :: l))%nat; simpl in Hy; [|discriminate].
              injection Hy as <-. apply gt_irrefl.
        -- intros j y Hj Hy. change (a :: l ++ [x]) with ((a :: l) ++ [x]) in Hy.
           rewrite lookup_app_l in Hy by lia.
           eapply gt_chain; eauto.
    + exists k. split.
      * change (a :: l ++ [x]) with ((a :: l) ++ [x]).
        rewrite lookup_app_l by lia. exact Hk.
      * split.
        -- intros j y Hy. change (a :: l ++ [x]) with ((a :: l) ++ [x]) in Hy.
           apply lookup_app_Some in Hy as [Hy | [_ Hy]].
           ++ eauto.
           ++ destruct (j - length (a :: l))%nat; simpl in Hy; [|discriminate].
              injection Hy as <-. exact Hx.
        -- intros j y Hj Hy. change (a :: l ++ [x]) with ((a :: l) ++ [x]) in Hy.
           rewrite lookup_app_l in Hy by lia. eauto.
Qed.

End FirstMaximum.

(** ** Integers as binary64 values *)

Local Open Scope Z_scope.

Lemma digits2_pos_bounds (p : positive) :
  2 ^ (Zpos (digits2_pos p) - 1) <= Zpos p < 2 ^ Zpos (digits2_pos p).
Proof.
  induction p as [p IH|p IH|]; simpl digits2_pos;
    try (rewrite Pos2Z.inj_succ;
         replace (Z.succ (Zpos (digits2_pos p)) - 1)
           with (Zpos (digits2_pos p)) by lia;
         rewrite Z.pow_succ_r by lia;
         assert (H : 2 ^ Zpos (digits2_pos p)
                     = 2 * 2 ^ (Zpos (digits2_pos p) - 1))
           by (rewrite <- Z.pow_succ_r by lia; f_equal; lia);
         lia).
  simpl. lia.
Qed.

Lemma digits2_pos_iter_xO (p k : positive) :
  Zpos (digits2_pos (Pos.iter xO p k)) = Zpos (digits2_pos p) + Zpos k.
Proof.
  revert p. induction k as [|k IH] using Pos.peano_ind; intros p.
  - simpl. lia.
  - rewrite Pos.iter_succ. simpl digits2_pos. rewrite Pos2Z.inj_succ, IH. lia.
Qed.

Lemma iter_xO_value (p k : positive) :
  Zpos (Pos.iter xO p k) = Zpos p * 2 ^ Zpos k.
Proof.
  revert p. induction k as [|k IH] using Pos.peano_ind; intros p.
  - simpl. lia.
  - rewrite Pos.iter_succ, Pos2Z.inj_succ, Z.pow_succ_r by lia.
    rewrite Pos2Z.inj_xO, IH. lia.
Qed.

Lemma fexp_binary64 (z : Z) : -1021 <= z -> fexp 53 1024 z = z - 53.
Proof. unfold fexp, emin. lia. Qed.

(** A mantissa of 53 bits with an exponent in range is left as it is. *)
Lemma binary_round_aux_canonical (s : bool) (m : positive) (e : Z) :
  Zpos (digits2_pos m) = 53 -> -1074 <= e <= 971 ->
  binary_round_aux 53 1024 s (Zpos m) e loc_Exact = S754_finite s m e.
Proof.
  intros Hd He. unfold binary_round_aux, shr_fexp. simpl Zdigits2.
  rewrite Hd. rewrite fexp_binary64 by lia.
  replace (53 + e - 53 - e) with 0 by lia. simpl.
  rewrite Hd. rewrite fexp_binary64 by lia.
  replace (53 + e - 53 - e) with 0 by lia. simpl.
  destruct (Z.leb_spec e (1024 - 53)); [reflexivity | lia].
Qed.

(** An integer of at most 53 bits is represented exactly. *)
Lemma binary_round_small (s : bool) (p : positive) :
  Zpos (digits2_pos p) <= 53 ->
  exists m,
    binary_round 53 1024 s p 0
      = S754_finite s m (Zpos (digits2_pos p) - 53)
    /\ Zpos (digits2_pos m) = 53
    /\ Zpos m = Zpos p * 2 ^ (53 - Zpos (digits2_pos p)).
Proof.
  intros Hd. unfold binary_round, shl_align.
  rewrite fexp_binary64 by lia.
  destruct (Zpos (digits2_pos p) + 0 - 53 - 0) as [|k|k] eqn:Hk; try lia.
  - exists p. rewrite binary_round_aux_canonical by lia.
    split; [f_equal; lia|]. split; [lia|].
    replace (53 - Zpos (digits2_pos p)) with 0 by lia. lia.
  - exists (Pos.iter xO p k).
    assert (Hdig : Zpos (digits2_pos (Pos.iter xO p k)) = 53)
      by (rewrite digits2_pos_iter_xO; lia).
    rewrite binary_round_aux_canonical by lia.
    split; [f_equal; lia|]. split; [exact Hdig|].
    replace (53 - Zpos (digits2_pos p)) with (Zpos k) by lia.
    apply iter_xO_value.
Qed.

Lemma shr_1_m (r : shr_record) :
  0 <= shr_m r -> shr_m (shr_1 r) = shr_m r / 2.
Proof.
  destruct r as [m b c]. simpl. intros Hm.
  destruct m as [|[q|q|]|q]; cbn [shr_m]; try lia; try reflexivity.
  - apply Z.div_unique with (r := 1); lia.
  - apply Z.div_unique with (r := 0); lia.
Qed.

Lemma iter_pos_shr_1_m (k : positive) (r : shr_record) :
  0 <= shr_m r ->
  shr_m (SpecFloat.iter_pos shr_1 k r) = shr_m r / 2 ^ Zpos k.
Proof.
  revert r. induction k as [k IH|k IH|]; intros r Hr;
    simpl SpecFloat.iter_pos.
  - assert (H1 : 0 <= shr_m (shr_1 r))
      by (rewrite shr_1_m by lia; apply Z.div_pos; lia).
    assert (H2 : 0 <= shr_m (SpecFloat.iter_pos shr_1 k (shr_1 r)))
      by (rewrite IH by lia; apply Z.div_pos; lia).
    rewrite IH, IH, shr_1_m by lia.
    rewrite !Z.div_div by lia. f_equal.
    rewrite Pos2Z.inj_xI, Z.pow_add_r, Z.pow_mul_r, Z.pow_2_r by lia.
    change (2 * 2) with 4. change (2 ^ 1) with 2.
    replace 4 with (2 * 2) by lia. rewrite Z.pow_mul_l. lia.
  - assert (H2 : 0 <= shr_m (SpecFloat.iter_pos shr_1 k r))
      by (rewrite IH by lia; apply Z.div_pos; lia).
    rewrite IH, IH by lia.
    rewrite !Z.div_div by lia. f_equal.
    rewrite Pos2Z.inj_xO, <- Z.pow_add_r by lia. f_equal. lia.
  - rewrite shr_1_m by lia. reflexivity.
Qed.

(** Shifting a positive mantissa down to 53 bits leaves it positive and
    never lowers the exponent. *)
Lemma shr_fexp_pos (q : positive) (e : Z) (l : location) :
  -1021 <= Zpos (digits2_pos q) + e ->
  0 < shr_m (fst (shr_fexp 53 1024 (Zpos q) e l))
  /\ snd (shr_fexp 53 1024 (Zpos q) e l)
     = e + Z.max 0 (Zpos (digits2_pos q) - 53).
Proof.
  intros He. unfold shr_fexp, shr. simpl Zdigits2.
  rewrite fexp_binary64 by lia.
  assert (Hm : shr_m (shr_record_of_loc (Zpos q) l) = Zpos q)
    by (destruct l as [|[| |]]; reflexivity).
  destruct (Zpos (digits2_pos q) + e - 53 - e) as [|k|k] eqn:Hk;
    simpl fst; simpl snd.
  - rewrite Hm. lia.
  - split; [|lia].
    rewrite iter_pos_shr_1_m by (rewrite Hm; lia). rewrite Hm.
    pose proof (digits2_pos_bounds q) as [Hlo _].
    assert (Hpow : 2 ^ (Zpos (digits2_pos q) - 1) = 2 ^ 52 * 2 ^ Zpos k).
    { rewrite <- Z.pow_add_r by lia. f_equal. lia. }
    apply Z.lt_le_trans with (2 ^ 52); [reflexivity|].
    apply Z.div_le_lower_bound; [apply Z.pow_pos_nonneg; lia|].
    rewrite Z.mul_comm. lia.
  - rewrite Hm. lia.
Qed.

Lemma round_nearest_even_pos (m : Z) (l : location) :
  0 < m -> 0 < round_nearest_even m l.
Proof.
  intros Hm. destruct l as [|[| |]]; simpl; try lia.
  destruct (Z.even m); lia.
Qed.

(** An integer of more than 53 bits is rounded to a value with a positive
    exponent, or overflows. *)
Lemma binary_round_big (s : bool) (p : positive) :
  53 < Zpos (digits2_pos p) ->
  (exists m e, binary_round 53 1024 s p 0 = S754_finite s m e /\ 1 <= e)
  \/ binary_round 53 1024 s p 0 = S754_infinity s.
Proof.
  intros Hd. unfold binary_round, shl_align.
  rewrite fexp_binary64 by lia.
  destruct (Zpos (digits2_pos p) + 0 - 53 - 0) as [|k|k] eqn:Hk; try lia.
  unfold binary_round_aux.
  destruct (shr_fexp_pos p 0 loc_Exact) as [Hm1 He1]; [lia|].
  destruct (shr_fexp 53 1024 (Zpos p) 0 loc_Exact) as [mrs' e'].
  simpl in Hm1, He1.
  pose proof (round_nearest_even_pos _ (loc_of_shr_record mrs') Hm1) as Hr.
  destruct (round_nearest_even (shr_m mrs') (loc_of_shr_record mrs'))
    as [|q|q]; try lia.
  destruct (shr_fexp_pos q e' loc_Exact) as [Hm2 He2]; [lia|].
  destruct (shr_fexp 53 1024 (Zpos q) e' loc_Exact) as [mrs'' e''].
  simpl in Hm2, He2.
  destruct (shr_m mrs'') as [|m|m]; try lia.
  destruct (e'' <=? 1024 - 53); [left | right; reflexivity].
  exists m, e''. split; [reflexivity | lia].
Qed.

(** The shape of [Number(z)] for a non-zero integer [z]: its sign is that
    of [z], and it is [1], or at least [2] in the order of numbers. *)
Lemma of_Z_pos_shape (p : positive) :
  (exists m, JS.of_Z (Zpos p)
             = S754_finite false m (Zpos (digits2_pos p) - 53)
             /\ Zpos (digits2_pos p) <= 53
             /\ Zpos (digits2_pos m) = 53
             /\ Zpos m = Zpos p * 2 ^ (53 - Zpos (digits2_pos p)))
  \/ (exists m e, JS.of_Z (Zpos p) = S754_finite false m e /\ 1 <= e)
  \/ JS.of_Z (Zpos p) = S754_infinity false.
Proof.
  unfold JS.of_Z, JS.prec, JS.emax. simpl binary_normalize.
  destruct (Z_le_gt_dec (Zpos (digits2_pos p)) 53) as [Hd|Hd].
  - left. destruct (binary_round_small false p Hd) as (m & H1 & H2 & H3).
    exists m. auto.
  - right. destruct (binary_round_big false p) as [(m & e & H1 & H2)|H]; [lia| |].
    + left. eauto.
    + right. exact H.
Qed.

Lemma of_Z_neg_shape (p : positive) :
  (exists m e, JS.of_Z (Zneg p) = S754_finite true m e)
  \/ JS.of_Z (Zneg p) = S754_infinity true.
Proof.
  unfold JS.of_Z, JS.prec, JS.emax. simpl binary_normalize.
  destruct (Z_le_gt_dec (Zpos (digits2_pos p)) 53) as [Hd|Hd].
  - left. destruct (binary_round_small true p Hd) as (m & H1 & _). eauto.
  - destruct (binary_round_big true p) as [(m & e & H1 & H2)|H]; [lia| |]; eauto.
Qed.

Lemma of_Z_not_NaN (z : Z) : JS.isNaN (JS.of_Z z) = false.
Proof.
  destruct z as [|p|p].
  - reflexivity.
  - destruct (of_Z_pos_shape p) as [(m & -> & _)|[(m & e & -> & _)| ->]];
      reflexivity.
  - destruct (of_Z_neg_shape p) as [(m & e & ->)| ->]; reflexivity.
Qed.

(** ** Rounding and clamping *)

Lemma two_eq : two = S754_finite false 4503599627370496 (-51).
Proof. reflexivity. Qed.

Lemma zero_eq : zero = S754_zero false.
Proof. reflexivity. Qed.

(** The clamp [Math.max(0, Math.min(2, r))] of an integer: the integer
    clamped to the interval from 0 to 2. *)
Lemma clamp_of_Z (n : Z) :
  JS.Math_max zero (JS.Math_min two (JS.of_Z n))
  = JS.of_Z (Z.max 0 (Z.min 2 n)).
Proof.
  destruct n as [|p|p].
  - reflexivity.
  - destruct (Z.eq_dec (Zpos p) 1) as [[= ->]|H1]; [reflexivity|].
    destruct (Z.eq_dec (Zpos p) 2) as [[= ->]|H2]; [reflexivity|].
    replace (Z.max 0 (Z.min 2 (Zpos p))) with 2 by lia.
    assert (Hmin : JS.Math_min two (JS.of_Z (Zpos p)) = two);
      [|rewrite Hmin; reflexivity].
    pose proof (digits2_pos_bounds p) as [Hlo Hhi].
    destruct (of_Z_pos_shape p)
      as [(m & -> & Hd & Hm & Hv)|[(m & e & -> & He)| ->]];
      rewrite two_eq; unfold JS.Math_min, SFcompare.
    + change (Pos.compare_cont Eq 4503599627370496 m)
        with (Z.compare 4503599627370496 (Zpos m)).
      destruct (Z.compare_spec (-51) (Zpos (digits2_pos p) - 53)) as [He|He|He];
        [|reflexivity|].
      * assert (Hd2 : Zpos (digits2_pos p) = 2) by lia.
        rewrite Hd2 in Hhi, Hv. change (2 ^ 2) with 4 in Hhi.
        change (2 ^ (53 - 2)) with 2251799813685248 in Hv.
        destruct (Z.compare_spec 4503599627370496 (Zpos m)) as [Hc|Hc|Hc];
          [reflexivity | reflexivity | exfalso; lia].
      * assert (Hd1 : Zpos (digits2_pos p) = 1) by lia.
        rewrite Hd1 in Hhi. change (2 ^ 1) with 2 in Hhi. lia.
    + destruct (Z.compare_spec (-51) e) as [Hc|Hc|Hc];
        [exfalso; lia | reflexivity | exfalso; lia].
    + reflexivity.
  - replace (Z.max 0 (Z.min 2 (Zneg p))) with 0 by lia.
    destruct (of_Z_neg_shape p) as [(m & e & ->)| ->]; reflexivity.
Qed.

Lemma of_Z_clamped (n : Z) :
  JS.of_Z (Z.max 0 (Z.min 2 n)) = zero
  \/ JS.of_Z (Z.max 0 (Z.min 2 n)) = one
  \/ JS.of_Z (Z.max 0 (Z.min 2 n)) = two.
Proof.
  assert (H : Z.max 0 (Z.min 2 n) = 0 \/ Z.max 0 (Z.min 2 n) = 1
              \/ Z.max 0 (Z.min 2 n) = 2) by lia.
  destruct H as [-> | [-> | ->]]; auto.
Qed.

(** Rounding then clamping a number other than NaN ends on 0, 1 or 2. *)
Lemma clamp_round_level (x : number) :
  JS.isNaN x = false ->
  let c := JS.Math_max zero (JS.Math_min two (JS.Math_round x)) in
  c = zero \/ c = one \/ c = two.
Proof.
  intros Hx c. subst c. destruct x as [s|s| |s m e]; try discriminate Hx.
  - destruct s; left; reflexivity.
  - destruct s; [left | right; right]; reflexivity.
  - unfold JS.Math_round. destruct (Z.leb_spec 0 e) as [He|He].
    + rewrite two_eq. unfold JS.Math_min, SFcompare. destruct s.
      * left. reflexivity.
      * right; right.
        destruct (Z.compare_spec (-51) e) as [Hc|Hc|Hc];
          [exfalso; lia | reflexivity | exfalso; lia].
    + cbv zeta. destruct (Z.eqb_spec
        ((2 * cond_Zopp s (Zpos m) + 2 ^ (- e)) / 2 ^ (1 - e)) 0) as [_|_].
      * left. destruct s; reflexivity.
      * rewrite clamp_of_Z. apply of_Z_clamped.
Qed.

Local Close Scope Z_scope.

(** ** The scalar branch on numbers other than NaN *)

Local Open Scope Z_scope.

(** A value with a negative exponent goes to [floor (x + 1/2)], clamped. *)
Lemma clamp_round_finite (s : bool) (m : positive) (e : Z) :
  e < 0 ->
  JS.Math_max zero (JS.Math_min two (JS.Math_round (S754_finite s m e)))
  = JS.of_Z
      (Z.max 0
         (Z.min 2 ((2 * cond_Zopp s (Zpos m) + 2 ^ (- e)) / 2 ^ (1 - e)))).
Proof.
  intros He. unfold JS.Math_round.
  destruct (Z.leb_spec 0 e) as [H|_]; [lia|]. cbv zeta.
  destruct (Z.eqb_spec
    ((2 * cond_Zopp s (Zpos m) + 2 ^ (- e)) / 2 ^ (1 - e)) 0) as [->|_].
  - destruct s; reflexivity.
  - apply clamp_of_Z.
Qed.

(** An integral value with a non-negative exponent is left as it is by
    [Math.round], and clamped by its sign. *)
Lemma clamp_round_integral (s : bool) (m : positive) (e : Z) :
  0 <= e ->
  JS.Math_max zero (JS.Math_min two (JS.Math_round (S754_finite s m e)))
  = if s then zero else two.
Proof.
  intros He. unfold JS.Math_round.
  destruct (Z.leb_spec 0 e) as [_|H]; [|lia].
  rewrite two_eq. unfold JS.Math_min, SFcompare. destruct s; [reflexivity|].
  destruct (Z.compare_spec (-51) e) as [Hc|Hc|Hc];
    [exfalso; lia | reflexivity | exfalso; lia].
Qed.

Lemma round_of_scaled (p : Z) (k : Z) :
  0 <= k -> (2 * (p * 2 ^ k) + 2 ^ k) / 2 ^ (1 + k) = p.
Proof.
  intros Hk. rewrite Z.pow_add_r by lia. change (2 ^ 1) with 2.
  assert (Hpos : 0 < 2 ^ k) by (apply Z.pow_pos_nonneg; lia).
  replace (2 * (p * 2 ^ k) + 2 ^ k) with ((2 * p + 1) * 2 ^ k) by ring.
  rewrite Z.div_mul_cancel_r by lia.
  symmetry. apply Z.div_unique with (r := 1); lia.
Qed.

(** A BigInt label is clamped as an integer. *)
Lemma clamp_round_of_Z (z : Z) :
  JS.Math_max zero (JS.Math_min two (JS.Math_round (JS.of_Z z)))
  = JS.of_Z (Z.max 0 (Z.min 2 z)).
Proof.
  destruct z as [|p|p].
  - reflexivity.
  - pose proof (digits2_pos_bounds p) as [Hlo Hhi].
    destruct (of_Z_pos_shape p)
      as [(m & Heq & Hd & Hm & Hv)|[(m & e & Heq & He)| Heq]].
    + destruct (Z.eq_dec (Zpos (digits2_pos p)) 53) as [Hd53|Hd53].
      * rewrite Heq, clamp_round_integral by lia.
        rewrite Hd53 in Hlo. change (2 ^ (53 - 1)) with 4503599627370496 in Hlo.
        replace (Z.max 0 (Z.min 2 (Zpos p))) with 2 by lia. reflexivity.
      * rewrite Heq, clamp_round_finite by lia. f_equal. f_equal. f_equal.
        simpl cond_Zopp. rewrite Hv.
        replace (- (Zpos (digits2_pos p) - 53))
          with (53 - Zpos (digits2_pos p)) by lia.
        replace (1 - (Zpos (digits2_pos p) - 53))
          with (1 + (53 - Zpos (digits2_pos p))) by lia.
        apply round_of_scaled. lia.
    + rewrite Heq, clamp_round_integral by lia.
      assert (H53 : 53 < Zpos (digits2_pos p)).
      { destruct (Z_le_gt_dec (Zpos (digits2_pos p)) 53) as [Hd|Hd]; [|lia].
        exfalso. unfold JS.of_Z, JS.prec, JS.emax in Heq.
        simpl binary_normalize in Heq.
        destruct (binary_round_small false p Hd) as (m' & H1 & _).
        rewrite H1 in Heq. injection Heq as _ Hexp. lia. }
      assert (Hbig : 2 ^ 53 <= 2 ^ (Zpos (digits2_pos p) - 1))
        by (apply Z.pow_le_mono_r; lia).
      change (2 ^ 53) with 9007199254740992 in Hbig.
      replace (Z.max 0 (Z.min 2 (Zpos p))) with 2 by lia. reflexivity.
    + rewrite Heq.
      assert (H53 : 53 < Zpos (digits2_pos p)).
      { destruct (Z_le_gt_dec (Zpos (digits2_pos p)) 53) as [Hd|Hd]; [|lia].
        exfalso. unfold JS.of_Z, JS.prec, JS.emax in Heq.
        simpl binary_normalize in Heq.
        destruct (binary_round_small false p Hd) as (m' & H1 & _).
        rewrite H1 in Heq. discriminate Heq. }
      assert (Hbig : 2 ^ 53 <= 2 ^ (Zpos (digits2_pos p) - 1))
        by (apply Z.pow_le_mono_r; lia).
      change (2 ^ 53) with 9007199254740992 in Hbig.
      replace (Z.max 0 (Z.min 2 (Zpos p))) with 2 by lia. reflexivity.
  - replace (Z.max 0 (Z.min 2 (Zneg p))) with 0 by lia.
    destruct (of_Z_neg_shape p) as [(m & e & ->)| ->]; [|reflexivity].
    destruct (Z_lt_le_dec e 0) as [He|He].
    + rewrite clamp_round_finite by exact He.
      assert (Hneg : (2 * cond_Zopp true (Zpos m) + 2 ^ (- e)) / 2 ^ (1 - e)
                     <= 0).
      { simpl cond_Zopp.
        assert (Hpos : 0 < 2 ^ (- e)) by (apply Z.pow_pos_nonneg; lia).
        assert (Hpow : 2 ^ (1 - e) = 2 * 2 ^ (- e)).
        { replace (1 - e) with (Z.succ (- e)) by lia.
          apply Z.pow_succ_r. lia. }
        rewrite Hpow.
        apply Z.lt_succ_r. apply Z.div_lt_upper_bound; [lia|].
        assert (Hm : 1 <= Zpos m) by lia.
        change (Z.neg m) with (- Zpos m). nia. }
      replace (Z.max 0 (Z.min 2
                 ((2 * cond_Zopp true (Zpos m) + 2 ^ (- e)) / 2 ^ (1 - e))))
        with 0 by lia.
      reflexivity.
    + rewrite clamp_round_integral by exact He. reflexivity.
Qed.

Local Close Scope Z_scope.

(** ** Decoding the model output *)

Lemma argmax_fold (d : TensorData) (l : list nat) (acc : nat * number) :
  fold_left (argmax_step d) l acc
  = fold_left
      (fun prev current : nat * number =>
         if JS.gt (snd current) (snd prev) then current else prev)
      (map (fun i => (i, getVal d i)) l) acc.
Proof.
  revert acc. induction l as [|i l IH]; intros acc; [reflexivity|].
  simpl. rewrite IH. reflexivity.
Qed.

(** The loop ends on the lowest index of a value that no value of the
    output exceeds. *)
Lemma argmax_spec (d : TensorData) :
  (1 <= data_length d)%nat ->
  exists i : nat,
    (i < data_length d)%nat
    /\ argmax d = (i, getVal d i)
    /\ (forall j, (j < data_length d)%nat ->
          JS.gt (getVal d j) (getVal d i) = false)
    /\ (forall j, (j < i)%nat -> JS.ge (getVal d j) (getVal d i) = false).
Proof.
  intros Hn. unfold argmax. rewrite argmax_fold.
  set (g := fun i : nat => (i, getVal d i)).
  destruct (fold_first_max snd (map g (seq 1 (data_length d - 1))) (g 0%nat))
    as (k & Hk & Hmax & Hfirst).
  cbv zeta in Hk, Hmax, Hfirst.
  set (r := fold_left _ _ _) in *.
  assert (Hall : g 0%nat :: map g (seq 1 (data_length d - 1))
                 = map g (seq 0 (data_length d))).
  { destruct (data_length d) as [|n]; [lia|].
    simpl. rewrite Nat.sub_0_r. reflexivity. }
  rewrite Hall in Hk, Hmax, Hfirst.
  assert (Hlookup : forall j y, map g (seq 0 (data_length d)) !! j = Some y ->
                      (j < data_length d)%nat /\ y = g j).
  { intros j y Hy.
    change (map g (seq 0 (data_length d)))
      with (g <$> seq 0 (data_length d)) in Hy.
    rewrite list_lookup_fmap in Hy.
    destruct (seq 0 (data_length d) !! j) as [j'|] eqn:Hj; [|discriminate].
    apply lookup_seq in Hj as [-> Hlt]. simpl in Hy. injection Hy as <-.
    auto. }
  assert (Hthere : forall j, (j < data_length d)%nat ->
                     map g (seq 0 (data_length d)) !! j = Some (g j)).
  { intros j Hj.
    change (map g (seq 0 (data_length d)))
      with (g <$> seq 0 (data_length d)).
    rewrite list_lookup_fmap, lookup_seq_lt by lia. reflexivity. }
  destruct (Hlookup _ _ Hk) as [Hlt Hr]. exists k.
  split; [exact Hlt|]. split; [exact Hr|]. rewrite Hr in Hmax, Hfirst. split.
  - intros j Hj. exact (Hmax j (g j) (Hthere j Hj)).
  - intros j Hj. apply (Hfirst j (g j) Hj). apply Hthere. lia.
Qed.

Lemma decode_argmax (d : TensorData) :
  (3 <= data_length d)%nat ->
  exists i : nat,
    (i < data_length d)%nat
    /\ decode d = {| congestion := JS.of_Z (Z.of_nat i);
                     probability := getVal d i |}
    /\ (forall j, (j < data_length d)%nat ->
          JS.gt (getVal d j) (getVal d i) = false)
    /\ (forall j, (j < i)%nat -> JS.ge (getVal d j) (getVal d i) = false).
Proof.
  intros Hn. destruct (argmax_spec d) as (i & Hi & Harg & Hmax & Hfirst); [lia|].
  exists i. split; [exact Hi|]. split; [|auto].
  unfold decode. destruct (Nat.leb_spec 3 (data_length d)); [|lia].
  rewrite Harg. reflexivity.
Qed.

Lemma decode_scalar (d : TensorData) :
  (data_length d < 3)%nat ->
  decode d
  = {| congestion :=
         JS.Math_max zero (JS.Math_min two (JS.Math_round (getVal d 0)));
       probability := one |}.
Proof.
  intros Hn. unfold decode.
  destruct (Nat.leb_spec 3 (data_length d)); [lia | reflexivity].
Qed.

(** Away from NaN the scalar branch ends on a level, with probability 1. *)
Lemma decode_scalar_level (d : TensorData) :
  (data_length d < 3)%nat ->
  JS.isNaN (getVal d 0) = false ->
  is_CongestionLevel (congestion (decode d)) /\ probability (decode d) = one.
Proof.
  intros Hlen Hnan. rewrite decode_scalar by exact Hlen. simpl.
  split; [apply (clamp_round_level _ Hnan) | reflexivity].
Qed.

(** A BigInt label decodes to itself, clamped between 0 and 2. *)
Lemma decode_scalar_BigInt (z : Z) (rest : list Z) :
  (length (z :: rest) < 3)%nat ->
  decode (BigIntData (z :: rest))
  = {| congestion := JS.of_Z (Z.max 0 (Z.min 2 z)); probability := one |}.
Proof.
  intros Hlen. rewrite decode_scalar by exact Hlen. simpl getVal.
  rewrite clamp_round_of_Z. reflexivity.
Qed.

(** A finite value [x] with a fraction decodes to [floor (x + 1/2)],
    clamped between 0 and 2. *)
Lemma decode_scalar_finite (s : bool) (m : positive) (e : Z)
    (rest : list number) :
  (e < 0)%Z ->
  (length (S754_finite s m e :: rest) < 3)%nat ->
  decode (NumberData (S754_finite s m e :: rest))
  = {| congestion :=
         JS.of_Z
           (Z.max 0
              (Z.min 2
                 ((2 * cond_Zopp s (Zpos m) + 2 ^ (- e)) / 2 ^ (1 - e))));
       probability := one |}.
Proof.
  intros He Hlen. rewrite decode_scalar by exact Hlen. simpl getVal.
  rewrite clamp_round_finite by exact He. reflexivity.
Qed.


Lemma argmax_from_NaN (d : TensorData) (l : list nat) (i : nat) :
  fold_left (argmax_step d) l (i, JS.NaN) = (i, JS.NaN).
Proof.
  induction l as [|j l IH]; [reflexivity|]. simpl. exact IH.
Qed.

Lemma argmax_fold_not_NaN (d : TensorData) (l : list nat)
    (acc : nat * number) :
  JS.isNaN (snd acc) = false ->
  JS.isNaN (snd (fold_left (argmax_step d) l acc)) = false.
Proof.
  revert acc. induction l as [|j l IH]; intros acc Hacc; [exact Hacc|].
  simpl. apply IH. unfold argmax_step.
  destruct (JS.gt (getVal d j) (snd acc)) eqn:Hgt; [|exact Hacc].
  simpl. apply (gt_not_NaN _ _ Hgt).
Qed.

(** A first score that is NaN is never replaced. *)
Lemma decode_argmax_first_NaN (d : TensorData) :
  (3 <= data_length d)%nat ->
  JS.isNaN (getVal d 0) = true ->
  decode d = {| congestion := zero; probability := JS.NaN |}.
Proof.
  intros Hlen Hnan. unfold decode.
  destruct (Nat.leb_spec 3 (data_length d)); [|lia].
  unfold argmax. destruct (getVal d 0); try discriminate Hnan.
  rewrite argmax_from_NaN. reflexivity.
Qed.

(** When the first score is not NaN, the loop ends on the lowest index of
    the greatest of the scores that are not NaN. *)
Lemma decode_argmax_greatest (d : TensorData) :
  (3 <= data_length d)%nat ->
  JS.isNaN (getVal d 0) = false ->
  exists i : nat,
    (i < data_length d)%nat
    /\ decode d = {| congestion := JS.of_Z (Z.of_nat i);
                     probability := getVal d i |}
    /\ JS.isNaN (getVal d i) = false
    /\ (forall j, (j < data_length d)%nat ->
          JS.gt (getVal d j) (getVal d i) = false)
    /\ (forall j, (j < data_length d)%nat ->
          JS.isNaN (getVal d j) = false ->
          JS.le (getVal d j) (getVal d i) = true)
    /\ (forall j, (j < i)%nat ->
          JS.isNaN (getVal d j) = false ->
          JS.lt (getVal d j) (getVal d i) = true).
Proof.
  intros Hlen Hfirst.
  destruct (argmax_spec d) as (i & Hi & Harg & Hmax & Hlow); [lia|].
  assert (Hnan : JS.isNaN (getVal d i) = false).
  { change (getVal d i) with (snd (i, getVal d i)). rewrite <- Harg.
    apply argmax_fold_not_NaN. exact Hfirst. }
  exists i. split; [exact Hi|]. split.
  { unfold decode. destruct (Nat.leb_spec 3 (data_length d)); [|lia].
    rewrite Harg. reflexivity. }
  split; [exact Hnan|]. split; [exact Hmax|]. split.
  - intros j Hj Hjn. apply not_gt_le; auto.
  - intros j Hj Hjn. apply not_ge_lt; auto.
Qed.

(** One index only is the lowest index of the greatest score. *)
Lemma greatest_index_unique (d : TensorData) (i k : nat) :
  (i < data_length d)%nat -> (k < data_length d)%nat ->
  JS.isNaN (getVal d i) = false -> JS.isNaN (getVal d k) = false ->
  (forall j, (j < data_length d)%nat -> JS.isNaN (getVal d j) = false ->
     JS.le (getVal d j) (getVal d i) = true) ->
  (forall j, (j < i)%nat -> JS.isNaN (getVal d j) = false ->
     JS.lt (getVal d j) (getVal d i) = true) ->
  (forall j, (j < data_length d)%nat -> JS.isNaN (getVal d j) = false ->
     JS.le (getVal d j) (getVal d k) = true) ->
  (forall j, (j < k)%nat -> JS.isNaN (getVal d j) = false ->
     JS.lt (getVal d j) (getVal d k) = true) ->
  k = i.
Proof.
  intros Hi Hk Hin Hkn Hmaxi Hlowi Hmaxk Hlowk.
  destruct (Nat.lt_trichotomy k i) as [Hlt | [Heq | Hlt]]; [|exact Heq|].
  - exfalso. pose proof (Hlowi k Hlt Hkn) as H1.
    apply lt_not_le in H1. rewrite (Hmaxk i Hi Hin) in H1. discriminate H1.
  - exfalso. pose proof (Hlowk i Hlt Hin) as H1.
    apply lt_not_le in H1. rewrite (Hmaxi k Hk Hkn) in H1. discriminate H1.
Qed.

(** ** [runInference] *)

Lemma runInference_Ok (session : InferenceSession) (inputData : list number)
    (outputData : TensorData) :
  run_model session inputData = Ok outputData ->
  runInference session inputData = Ok (decode outputData).
Proof.
  intros H. unfold runInference, runInference_try. rewrite H. reflexivity.
Qed.

Lemma runInference_Throw (session : InferenceSession)
    (inputData : list number) (e : thrown) :
  run_model session inputData = Throw e ->
  runInference session inputData = Ok fallback.
Proof.
  intros H. unfold runInference, runInference_try. rewrite H. reflexivity.
Qed.

Lemma runInference_total (session : InferenceSession)
    (inputData : list number) :
  exists r, runInference session inputData = Ok r.
Proof.
  destruct (run_model session inputData) as [d|e] eqn:H.
  - exists (decode d). apply runInference_Ok, H.
  - exists fallback. eapply runInference_Throw, H.
Qed.

Lemma fallback_well_formed : well_formed fallback.
Proof.
  split; [left; reflexivity | split; reflexivity].
Qed.

Lemma of_nat_level (i : nat) :
  (i < 3)%nat -> is_CongestionLevel (JS.of_Z (Z.of_nat i)).
Proof.
  intros Hi. destruct i as [|[|[|i]]]; [left | right; left | right; right | lia];
    reflexivity.
Qed.

(** Some examples of the scalar branch. *)
Example decode_scalar_2_6 :
  decode (NumberData [ratio 26 10]) = {| congestion := two; probability := one |}.
Proof. reflexivity. Qed.

Example decode_scalar_minus_1 :
  decode (NumberData [JS.of_Z (-1)])
  = {| congestion := zero; probability := one |}.
Proof. reflexivity. Qed.

Example decode_scalar_label :
  decode (BigIntData [1%Z]) = {| congestion := one; probability := one |}.
Proof. reflexivity. Qed.

(** C2, as the specification states it, fails: on the scores
    [NaN, 0.1, 0.9] the result is congestion 0 with probability NaN, which
    is not at least the score 0.1, let alone the greatest score 0.9. *)
Lemma runInference_argmax_not_greatest :
  ~ (forall (session : InferenceSession) (inputData : list number)
            (outputData : TensorData),
        run_model session inputData = Ok outputData ->
        (3 <= data_length outputData)%nat ->
        exists i : nat,
          (i < data_length outputData)%nat
          /\ runInference session inputData
             = Ok {| congestion := JS.of_Z (Z.of_nat i);
                     probability := getVal outputData i |}
          /\ forall j, (j < data_length outputData)%nat ->
               JS.isNaN (getVal outputData j) = false ->
               JS.le (getVal outputData j) (getVal outputData i) = true).
Proof.
  intros H.
  destruct (H (constant_session (NumberData [JS.NaN; ratio 1 10; ratio 9 10]))
              sample_inputData
              (NumberData [JS.NaN; ratio 1 10; ratio 9 10]) eq_refl)
    as (i & _ & Hrun & Hmax); [simpl; lia|].
  assert (E : runInference
                (constant_session (NumberData [JS.NaN; ratio 1 10; ratio 9 10]))
                sample_inputData
              = Ok {| congestion := zero; probability := JS.NaN |})
    by reflexivity.
  rewrite E in Hrun.
  assert (Hp : getVal (NumberData [JS.NaN; ratio 1 10; ratio 9 10]) i
               = JS.NaN) by congruence.
  pose proof (Hmax 1%nat ltac:(simpl; lia) eq_refl) as H1.
  rewrite Hp in H1. discriminate H1.
Qed.

(** C2, amended. On an output of at least three values of which the first
    is not NaN, [runInference] returns as congestion the lowest index
    holding the greatest of the values that are not NaN, and as probability
    that value: the value is not NaN, every value that is not NaN is at
    most it, every such value at a lower index is less than it, and no
    other index has these properties. Values that are NaN after the first
    are passed over. When the first value is NaN the result is congestion
    0 with probability NaN. The outputs [0.1, 0.7, 0.2] and
    [0.5, 0.5, 0.0] decode to congestion 1 with probability 0.7 and to
    congestion 0. *)
Theorem runInference_argmax :
  (forall (session : InferenceSession) (inputData : list number)
          (outputData : TensorData),
      run_model session inputData = Ok outputData ->
      (3 <= data_length outputData)%nat ->
      (JS.isNaN (getVal outputData 0) = false ->
       exists i : nat,
         (i < data_length outputData)%nat
         /\ runInference session inputData
            = Ok {| congestion := JS.of_Z (Z.of_nat i);
                    probability := getVal outputData i |}
         /\ JS.isNaN (getVal outputData i) = false
         /\ (forall j, (j < data_length outputData)%nat ->
               JS.isNaN (getVal outputData j) = false ->
               JS.le (getVal outputData j) (getVal outputData i) = true)
         /\ (forall j, (j < i)%nat ->
               JS.isNaN (getVal outputData j) = false ->
               JS.lt (getVal outputData j) (getVal outputData i) = true)
         /\ (forall k, (k < data_length outputData)%nat ->
               JS.isNaN (getVal outputData k) = false ->
               (forall j, (j < data_length outputData)%nat ->
                  JS.isNaN (getVal outputData j) = false ->
                  JS.le (getVal outputData j) (getVal outputData k) = true) ->
               (forall j, (j < k)%nat ->
                  JS.isNaN (getVal outputData j) = false ->
                  JS.lt (getVal outputData j) (getVal outputData k) = true) ->
               k = i))
      /\ (JS.isNaN (getVal outputData 0) = true ->
          runInference session inputData
          = Ok {| congestion := zero; probability := JS.NaN |}))
  /\ decode (NumberData [ratio 1 10; ratio 7 10; ratio 2 10])
     = {| congestion := one; probability := ratio 7 10 |}
  /\ decode (NumberData [ratio 5 10; ratio 5 10; ratio 0 10])
     = {| congestion := zero; probability := ratio 5 10 |}.
Proof.
  split; [|split; reflexivity].
  intros session inputData outputData Hrun Hlen.
  rewrite (runInference_Ok _ _ _ Hrun). split.
  - intros Hfirst.
    destruct (decode_argmax_greatest outputData Hlen Hfirst)
      as (i & Hi & Hdec & Hnan & _ & Hmax & Hlow).
    exists i. rewrite Hdec. split; [exact Hi|]. split; [reflexivity|].
    split; [exact Hnan|]. split; [exact Hmax|]. split; [exact Hlow|].
    intros k Hk Hkn Hmaxk Hlowk.
    exact (greatest_index_unique outputData i k Hi Hk Hnan Hkn
             Hmax Hlow Hmaxk Hlowk).
  - intros Hfirst. f_equal. apply decode_argmax_first_NaN; assumption.
Qed.

Lemma runInference_argmax_witness :
  exists i : nat,
    (i < 3)%nat
    /\ runInference
         (constant_session (NumberData [ratio 1 10; JS.NaN; ratio 2 10]))
         sample_inputData
       = Ok {| congestion := JS.of_Z (Z.of_nat i);
               probability :=
                 getVal (NumberData [ratio 1 10; JS.NaN; ratio 2 10]) i |}
    /\ JS.isNaN (getVal (NumberData [ratio 1 10; JS.NaN; ratio 2 10]) i)
       = false.
Proof.
  destruct (proj1 (proj1 runInference_argmax
              (constant_session (NumberData [ratio 1 10; JS.NaN; ratio 2 10]))
              sample_inputData
              (NumberData [ratio 1 10; JS.NaN; ratio 2 10])
              eq_refl ltac:(simpl; lia)) eq_refl)
    as (i & Hi & Hrun & Hnan & _).
  exists i. split; [exact Hi|]. split; [exact Hrun | exact Hnan].
Defined.

(** C3. The scalar branch on an output whose only value is NaN, and on an
    empty output, whose first element reads as undefined: the congestion
    returned is NaN, which is none of the levels 0, 1 and 2 and is neither
    at least 0 nor at most 2. *)
Theorem runInference_scalar_NaN :
  (data_length (NumberData [JS.NaN]) < 3)%nat
  /\ runInference (constant_session (NumberData [JS.NaN])) sample_inputData
     = Ok {| congestion := JS.NaN; probability := one |}
  /\ runInference (constant_session (NumberData [])) sample_inputData
     = Ok {| congestion := JS.NaN; probability := one |}
  /\ ~ is_CongestionLevel JS.NaN
  /\ JS.le zero JS.NaN = false
  /\ JS.le JS.NaN two = false.
Proof.
  split; [simpl; lia|]. split; [reflexivity|]. split; [reflexivity|].
  split; [|split; reflexivity].
  intros [H | [H | H]]; discriminate H.
Qed.

(** C4. [runInference] always returns: when a step of its [try] block
    throws, be it the construction of the tensor, the run of the session or
    the read of the output, the value returned is the fallback, congestion 0
    with probability 0. *)
Theorem runInference_never_throws (session : InferenceSession)
    (inputData : list number) :
  (exists r, runInference session inputData = Ok r)
  /\ (forall e, runInference_try session inputData = Throw e ->
        runInference session inputData
        = Ok {| congestion := zero; probability := zero |})
  /\ (forall e,
        new_Tensor "float32" (Float32Array_from inputData) [1; 8]%Z = Throw e ->
        runInference session inputData = Ok fallback)
  /\ (forall inputTensor e,
        new_Tensor "float32" (Float32Array_from inputData) [1; 8]%Z
          = Ok inputTensor ->
        run session {[ first_name (inputNames session) := inputTensor ]}
          = Throw e ->
        runInference session inputData = Ok fallback)
  /\ (forall inputTensor output,
        new_Tensor "float32" (Float32Array_from inputData) [1; 8]%Z
          = Ok inputTensor ->
        run session {[ first_name (inputNames session) := inputTensor ]}
          = Ok output ->
        output !! first_name (outputNames session) = None ->
        runInference session inputData = Ok fallback).
Proof.
  split; [apply runInference_total|]. split; [|split; [|split]].
  - intros e H. unfold runInference. rewrite H. reflexivity.
  - intros e H. eapply runInference_Throw with (e := e).
    unfold run_model. rewrite H. reflexivity.
  - intros t e Ht H. eapply runInference_Throw with (e := e).
    unfold run_model. rewrite Ht. simpl. rewrite H. reflexivity.
  - intros t output Ht Hout H. eapply runInference_Throw.
    unfold run_model. rewrite Ht. simpl. rewrite Hout. simpl. rewrite H.
    reflexivity.
Qed.

Lemma runInference_never_throws_witness :
  runInference failing_session sample_inputData
  = Ok {| congestion := zero; probability := zero |}.
Proof.
  apply (proj1 (proj2 (runInference_never_throws failing_session
                         sample_inputData))
           (ErrorObject "Error" "failed to call OrtRun()")).
  reflexivity.
Defined.

(** C8, as the specification states it, fails: three scores of which the
    greatest is 2 are decoded to a probability of 2. *)
Lemma runInference_not_always_well_formed :
  ~ (forall (session : InferenceSession) (inputData : list number)
            (r : InferenceResult),
        runInference session inputData = Ok r -> well_formed r).
Proof.
  intros H.
  destruct (H (constant_session (NumberData [two; one; zero])) sample_inputData
              {| congestion := zero; probability := two |} eq_refl)
    as [_ [_ Hle]].
  discriminate Hle.
Qed.

Lemma of_nat_level_inv (k : nat) :
  is_CongestionLevel (JS.of_Z (Z.of_nat k)) -> (k < 3)%nat.
Proof.
  intros Hlevel.
  destruct k as [|[|[|k]]]; try lia. exfalso.
  set (p := Pos.of_succ_nat (S (S k))).
  change (Z.of_nat (S (S (S k)))) with (Zpos p) in Hlevel.
  assert (Hp : (3 <= Zpos p)%Z) by (unfold p; lia).
  pose proof (digits2_pos_bounds p) as [Hlo Hhi].
  destruct (of_Z_pos_shape p)
    as [(m & Heq & Hd & Hm & Hv)|[(m & e & Heq & He)| Heq]];
    rewrite Heq in Hlevel;
    destruct Hlevel as [H | [H | H]]; try discriminate H.
  - change one with (S754_finite false 4503599627370496 (-52)) in H.
    injection H as _ He.
    assert (Hd1 : Zpos (digits2_pos p) = 1%Z) by lia.
    rewrite Hd1 in Hhi. change (2 ^ 1)%Z with 2%Z in Hhi. lia.
  - rewrite two_eq in H. injection H as Hm2 He.
    assert (Hd2 : Zpos (digits2_pos p) = 2%Z) by lia.
    rewrite Hd2 in Hv. change (2 ^ (53 - 2))%Z with 2251799813685248%Z in Hv.
    assert (Hm3 : Zpos m = 4503599627370496%Z) by (rewrite Hm2; reflexivity).
    lia.
  - change one with (S754_finite false 4503599627370496 (-52)) in H.
    injection H as _ He'. lia.
  - rewrite two_eq in H. injection H as _ He'. lia.
Qed.

(** The scalar branch on NaN ends on NaN. *)
Lemma decode_scalar_NaN (d : TensorData) :
  (data_length d < 3)%nat ->
  JS.isNaN (getVal d 0) = true ->
  congestion (decode d) = JS.NaN.
Proof.
  intros Hlen Hnan. rewrite decode_scalar by exact Hlen. simpl.
  destruct (getVal d 0); try discriminate Hnan. reflexivity.
Qed.

Lemma decode_guarded (d : TensorData) :
  guarded_output d <-> well_formed (decode d).
Proof.
  split.
  - intros [[Hlen Hnan] | (Hlen & Hfirst & i & Hi & Hprob & Hno)].
    + destruct (decode_scalar_level d Hlen Hnan) as [Hc Hp].
      split; [exact Hc|]. rewrite Hp. split; reflexivity.
    + destruct (decode_argmax_greatest d Hlen Hfirst)
        as (k & Hk & -> & Hkn & Hnok & Hmax & Hlow).
      destruct Hprob as [H0 H1].
      pose proof (le_not_NaN _ _ H0) as [_ Hin].
      assert (Hik : JS.le (getVal d i) (getVal d k) = true)
        by (apply Hmax; [lia | exact Hin]).
      assert (Hki : JS.le (getVal d k) (getVal d i) = true)
        by (apply not_gt_le; auto; apply Hno; exact Hk).
      split; simpl.
      * apply of_nat_level.
        destruct (Nat.le_gt_cases k i) as [Hle|Hgt]; [lia|].
        pose proof (Hlow i Hgt Hin) as Hlt.
        apply lt_not_le in Hlt. rewrite Hki in Hlt. discriminate Hlt.
      * split; [exact (le_trans _ _ _ H0 Hik) | exact (le_trans _ _ _ Hki H1)].
  - intros [Hc [H0 H1]].
    destruct (Nat.leb_spec 3 (data_length d)) as [Hlen|Hlen].
    + right. split; [exact Hlen|].
      destruct (JS.isNaN (getVal d 0)) eqn:Hfirst.
      { rewrite decode_argmax_first_NaN in H0 by assumption.
        discriminate H0. }
      split; [reflexivity|].
      destruct (decode_argmax_greatest d Hlen Hfirst)
        as (k & Hk & Hdec & Hkn & Hnok & _).
      rewrite Hdec in Hc, H0, H1. simpl in Hc, H0, H1.
      exists k. split; [apply of_nat_level_inv, Hc|].
      split; [split; assumption | exact Hnok].
    + left. split; [exact Hlen|].
      destruct (JS.isNaN (getVal d 0)) eqn:Hfirst; [|reflexivity].
      rewrite (decode_scalar_NaN d Hlen Hfirst) in Hc.
      destruct Hc as [H | [H | H]]; discriminate H.
Qed.

(** C8, amended. The result of [runInference] has a congestion among 0, 1
    and 2 and a probability between 0 and 1 exactly in these cases: the
    run fails; the output has fewer than three values and the first is not
    NaN; the output has at least three values, the first is not NaN, and
    one of the first three is between 0 and 1 and exceeded by no value of
    the output. *)
Theorem runInference_well_formed (session : InferenceSession)
    (inputData : list number) (r : InferenceResult) :
  runInference session inputData = Ok r ->
  (well_formed r
   <-> forall outputData,
         run_model session inputData = Ok outputData ->
         guarded_output outputData).
Proof.
  intros Hr.
  destruct (run_model session inputData) as [d|e] eqn:Hrun.
  - rewrite (runInference_Ok _ _ _ Hrun) in Hr. injection Hr as <-.
    split.
    + intros Hwf outputData Heq. injection Heq as <-.
      apply decode_guarded, Hwf.
    + intros Hguard. apply decode_guarded, Hguard. reflexivity.
  - rewrite (runInference_Throw _ _ _ Hrun) in Hr. injection Hr as <-.
    split; [intros _ outputData Heq; discriminate Heq|].
    intros _. apply fallback_well_formed.
Qed.

Lemma runInference_well_formed_witness :
  well_formed {| congestion := one; probability := ratio 7 10 |}.
Proof.
  apply (runInference_well_formed
           (constant_session
              (NumberData [JS.of_Z (-5); ratio 7 10; ratio 2 10]))
           sample_inputData).
  - reflexivity.
  - intros outputData H. vm_compute in H. injection H as <-. right.
    split; [simpl; lia|]. split; [reflexivity|].
    exists 1%nat. split; [lia|]. split; [split; reflexivity|].
    intros j _. destruct j as [|[|[|j]]]; reflexivity.
Defined.

(** ** The loop over the locations *)

Lemma run_models_both (s1 s2 : InferenceSession) (inputData : list number) :
  exists r1 r2,
    runInference s1 inputData = Ok r1
    /\ runInference s2 inputData = Ok r2
    /\ run_models (Some s1) (Some s2) inputData = Ok [r1; r2].
Proof.
  destruct (runInference_total s1 inputData) as [r1 H1].
  destruct (runInference_total s2 inputData) as [r2 H2].
  exists r1, r2. unfold run_models. rewrite H1, H2. auto.
Qed.

Lemma run_models_none (inputData : list number) :
  run_models None None inputData = Ok [].
Proof. reflexivity. Qed.

Lemma predict_location_both (s1 s2 : InferenceSession) (hour day : number)
    (weather : WeatherData.t) (location : Location.t) :
  exists r1 r2 final,
    run_models (Some s1) (Some s2) (inputData_of location hour day weather)
      = Ok [r1; r2]
    /\ reduce max_congestion [r1; r2] = Ok final
    /\ predict_location (Some s1) (Some s2) hour day weather location
       = Ok {| PredictionResult.location := Location.name location;
               PredictionResult.latitude := Location.latitude location;
               PredictionResult.longitude := Location.longitude location;
               PredictionResult.congestion := congestion final;
               PredictionResult.congestionLabel :=
                 CONGESTION_LABELS (congestion final);
               PredictionResult.probability := probability final |}.
Proof.
  destruct (run_models_both s1 s2 (inputData_of location hour day weather))
    as (r1 & r2 & _ & _ & Hrun).
  exists r1, r2, (max_congestion r1 r2).
  split; [exact Hrun|]. split; [reflexivity|].
  unfold predict_location. rewrite Hrun. reflexivity.
Qed.

(** With both sessions at hand the prediction of a location carries the
    reduction of the two results, each being what [runInference] returns on
    the feature vector of the location. *)
Lemma predict_location_carries (s1 s2 : InferenceSession) (hour day : number)
    (weather : WeatherData.t) (location : Location.t) :
  exists r1 r2,
    runInference s1 (inputData_of location hour day weather) = Ok r1
    /\ runInference s2 (inputData_of location hour day weather) = Ok r2
    /\ predict_location (Some s1) (Some s2) hour day weather location
       = Ok {| PredictionResult.location := Location.name location;
               PredictionResult.latitude := Location.latitude location;
               PredictionResult.longitude := Location.longitude location;
               PredictionResult.congestion := congestion (max_congestion r1 r2);
               PredictionResult.congestionLabel :=
                 CONGESTION_LABELS (congestion (max_congestion r1 r2));
               PredictionResult.probability :=
                 probability (max_congestion r1 r2) |}.
Proof.
  destruct (run_models_both s1 s2 (inputData_of location hour day weather))
    as (r1 & r2 & H1 & H2 & Hrun).
  exists r1, r2. split; [exact H1|]. split; [exact H2|].
  unfold predict_location. rewrite Hrun. reflexivity.
Qed.

(** What the comparison of the reduction keeps. *)
Lemma max_congestion_order (r1 r2 : InferenceResult) :
  (JS.lt (congestion r1) (congestion r2) = true -> max_congestion r1 r2 = r2)
  /\ (JS.lt (congestion r1) (congestion r2) = false ->
      max_congestion r1 r2 = r1)
  /\ (JS.isNaN (congestion r1) = false ->
      JS.le (congestion r1) (congestion (max_congestion r1 r2)) = true
      /\ (JS.isNaN (congestion r2) = false ->
          JS.le (congestion r2) (congestion (max_congestion r1 r2)) = true))
  /\ (JS.isNaN (congestion r1) = true ->
      max_congestion r1 r2 = r1 /\ congestion (max_congestion r1 r2) = JS.NaN).
Proof.
  unfold max_congestion.
  change (JS.gt (congestion r2) (congestion r1))
    with (JS.lt (congestion r1) (congestion r2)).
  split; [intros ->; reflexivity|]. split; [intros ->; reflexivity|]. split.
  - intros H1.
    destruct (JS.lt (congestion r1) (congestion r2)) eqn:Hlt.
    + split; [apply lt_le, Hlt|]. intros H2. apply le_refl, H2.
    + split; [apply le_refl, H1|]. intros H2.
      apply not_gt_le; [exact H2 | exact H1 | exact Hlt].
  - intros H1. apply isNaN_eq in H1.
    destruct r1 as [c1 p1]. simpl in H1. subst c1. split; reflexivity.
Qed.

Lemma predict_location_none (hour day : number) (weather : WeatherData.t)
    (location : Location.t) :
  predict_location None None hour day weather location
  = Throw (ErrorObject "Error" "No models loaded").
Proof. reflexivity. Qed.

(** The loop adds one prediction per location, in order, or stops at the
    first location whose prediction throws. *)
Lemma predict_all_Ok (stage1 stage2 : option InferenceSession)
    (hour day : number) (weather : WeatherData.t)
    (locations : list Location.t) (acc predictions : list PredictionResult.t) :
  predict_all stage1 stage2 hour day weather locations acc = Ok predictions ->
  exists added,
    predictions = acc ++ added
    /\ Forall2
         (fun location p =>
            predict_location stage1 stage2 hour day weather location = Ok p)
         locations added.
Proof.
  revert acc. induction locations as [|location rest IH]; intros acc H.
  - simpl in H. injection H as <-. exists []. rewrite app_nil_r.
    split; [reflexivity | constructor].
  - simpl in H.
    destruct (predict_location stage1 stage2 hour day weather location)
      as [p|e] eqn:Hp; simpl in H; [|discriminate].
    destruct (IH _ H) as (added & -> & Hall).
    exists (p :: added). rewrite <- app_assoc. split; [reflexivity|].
    constructor; assumption.
Qed.

Lemma predict_all_both (s1 s2 : InferenceSession) (hour day : number)
    (weather : WeatherData.t) (locations : list Location.t)
    (acc : list PredictionResult.t) :
  exists predictions,
    predict_all (Some s1) (Some s2) hour day weather locations acc
    = Ok predictions.
Proof.
  revert acc. induction locations as [|location rest IH]; intros acc.
  - exists acc. reflexivity.
  - destruct (predict_location_both s1 s2 hour day weather location)
      as (r1 & r2 & final & _ & _ & Hp).
    simpl. rewrite Hp. simpl. apply IH.
Qed.

(** ** The session cache *)

Lemma getSessions_resident (store : ModelStore) (s : Sessions) :
  is_Some (stage1 s) -> is_Some (stage2 s) ->
  getSessions store s = (Ok s, s, []).
Proof.
  intros [s1 H1] [s2 H2]. unfold getSessions. rewrite H1, H2. reflexivity.
Qed.

Lemma getSessions_try_Ok (store : ModelStore) (s loaded s' : Sessions)
    (events : list io_event) :
  getSessions_try store s = (Ok loaded, s', events) ->
  exists buffer1 buffer2 session1 session2,
    readFile store (modelPath1 store) = Ok buffer1
    /\ readFile store (modelPath2 store) = Ok buffer2
    /\ create store buffer1 = Ok session1
    /\ create store buffer2 = Ok session2
    /\ loaded = {| stage1 := Some session1; stage2 := Some session2 |}
    /\ s' = loaded
    /\ events = [ReadFile (modelPath1 store); ReadFile (modelPath2 store);
                 CreateSession buffer1; CreateSession buffer2].
Proof.
  unfold getSessions_try. intros H.
  destruct (readFile store (modelPath1 store)) as [b1|e1];
    destruct (readFile store (modelPath2 store)) as [b2|e2];
    simpl in H; try discriminate H.
  destruct (create store b1) as [c1|e1] eqn:Hc1;
    destruct (create store b2) as [c2|e2] eqn:Hc2;
    simpl in H; try discriminate H.
  injection H as <- <- <-. exists b1, b2, c1, c2. auto 10.
Qed.


Lemma getSessions_try_events (store : ModelStore) (s : Sessions) :
  exists rest,
    snd (getSessions_try store s)
    = ReadFile (modelPath1 store) :: ReadFile (modelPath2 store) :: rest.
Proof.
  unfold getSessions_try.
  destruct (Promise_all2 _ _ _) as [[b1 b2]|e]; [|eexists; reflexivity].
  destruct (Promise_all2 _ _ _) as [[c1 c2]|e]; eexists; reflexivity.
Qed.

Lemma getSessions_absent (store : ModelStore) (s : Sessions) :
  ~ (is_Some (stage1 s) /\ is_Some (stage2 s)) ->
  getSessions store s = getSessions_try store s.
Proof.
  intros Hnot. unfold getSessions.
  destruct (stage1 s) as [s1|] eqn:H1; [destruct (stage2 s) as [s2|] eqn:H2|];
    try reflexivity.
  exfalso. apply Hnot. split; eexists; reflexivity.
Qed.

Lemma resident_dec (s : Sessions) :
  (is_Some (stage1 s) /\ is_Some (stage2 s))
  \/ ~ (is_Some (stage1 s) /\ is_Some (stage2 s)).
Proof.
  destruct (stage1 s) as [s1|]; [destruct (stage2 s) as [s2|]|].
  - left. split; eexists; reflexivity.
  - right. intros [_ [x Hx]]. discriminate Hx.
  - right. intros [[x Hx] _]. discriminate Hx.
Qed.

(** What a call that returns has done: nothing when both sessions were
    resident, else both reads and both creations, all four successful. *)
Lemma getSessions_Ok (store : ModelStore) (s loaded s' : Sessions)
    (events : list io_event) :
  getSessions store s = (Ok loaded, s', events) ->
  loaded = s'
  /\ is_Some (stage1 loaded) /\ is_Some (stage2 loaded)
  /\ ((s' = s /\ events = [])
      \/ exists buffer1 buffer2,
           events = [ReadFile (modelPath1 store);
                     ReadFile (modelPath2 store);
                     CreateSession buffer1; CreateSession buffer2]).
Proof.
  intros H. destruct (resident_dec s) as [[H1 H2]|Hnot].
  - rewrite getSessions_resident in H by assumption.
    injection H as <- <- <-. auto 10.
  - rewrite getSessions_absent in H by assumption.
    apply getSessions_try_Ok in H
      as (b1 & b2 & c1 & c2 & _ & _ & _ & _ & -> & -> & ->).
    split; [reflexivity|]. split; [eexists; reflexivity|].
    split; [eexists; reflexivity|]. right. eauto.
Qed.


(** When the sessions are not both resident, the first thing a call does is
    to read both artifacts. *)
Lemma getSessions_loads (store : ModelStore) (s : Sessions) :
  ~ (is_Some (stage1 s) /\ is_Some (stage2 s)) ->
  exists rest,
    snd (getSessions store s)
    = ReadFile (modelPath1 store) :: ReadFile (modelPath2 store) :: rest.
Proof.
  intros Hnot. rewrite getSessions_absent by assumption.
  apply getSessions_try_events.
Qed.


(** ** The handler *)

Lemma GET_try_cases (env : Environment) (request : NextRequest)
    (sessions : Sessions) :
  let hour :=
    fun timeInfo =>
      resolve (searchParams_get request "hour") (TimeInfo.hour timeInfo) in
  let day :=
    fun timeInfo =>
      resolve (searchParams_get request "day") (TimeInfo.day timeInfo) in
  let weather_at :=
    fun timeInfo =>
      getWeatherForTime env
        (center Location.latitude (cameraLocations env))
        (center Location.longitude (cameraLocations env))
        (hour timeInfo) (day timeInfo) in
  GET_try env request sessions
  = match getCurrentTimeInfo env with
    | Throw err => (Throw err, sessions, [])
    | Ok timeInfo =>
        match weather_at timeInfo with
        | Throw err => (Throw err, sessions, [])
        | Ok weather =>
            match getSessions (store env) sessions with
            | (Throw err, sessions', events) => (Throw err, sessions', events)
            | (Ok loaded, sessions', events) =>
                match predict_all (stage1 loaded) (stage2 loaded)
                        (hour timeInfo) (day timeInfo) weather
                        (cameraLocations env) [] with
                | Throw err => (Throw err, sessions', events)
                | Ok predictions =>
                    (Ok {| BatchPredictionResponse.predictions := predictions;
                           BatchPredictionResponse.weather := weather;
                           BatchPredictionResponse.timestamp :=
                             now_ISOString env;
                           BatchPredictionResponse.hour := hour timeInfo;
                           BatchPredictionResponse.day := day timeInfo |},
                     sessions', events)
                end
            end
        end
    end.
Proof.
  cbv zeta. unfold GET_try, bindM, lift, ret.
  destruct (getCurrentTimeInfo env) as [timeInfo|err]; [|reflexivity].
  destruct (getWeatherForTime env _ _ _ _) as [weather|err]; [|reflexivity].
  destruct (getSessions (store env) sessions) as [[[loaded|err] s'] events];
    [|simpl; rewrite ?app_nil_r; reflexivity].
  destruct (predict_all _ _ _ _ _ _ _) as [predictions|err];
    simpl; rewrite ?app_nil_r; reflexivity.
Qed.

(** What the [try] block throws goes through the [catch] clause: the
    response has status 500, unless reading the message of what was thrown
    throws in turn. *)
Lemma GET_Throw (env : Environment) (request : NextRequest)
    (sessions sessions' : Sessions) (err : thrown) (events : list io_event) :
  GET_try env request sessions = (Throw err, sessions', events) ->
  GET env request sessions
  = (bind (details_of err)
       (fun details =>
          Ok {| status := 500;
                body := Failure "Failed to generate predictions" details |}),
     sessions', events).
Proof. intros H. unfold GET. rewrite H. reflexivity. Qed.

Lemma GET_Ok (env : Environment) (request : NextRequest)
    (sessions sessions' : Sessions) (response : BatchPredictionResponse.t)
    (events : list io_event) :
  GET_try env request sessions = (Ok response, sessions', events) ->
  GET env request sessions
  = (Ok {| status := 200; body := Batch response |}, sessions', events).
Proof. intros H. unfold GET. rewrite H. reflexivity. Qed.

(** A response of the [catch] clause is never a batch. *)
Lemma catch_not_Batch (err : thrown) (code : nat)
    (response : BatchPredictionResponse.t) :
  bind (details_of err)
    (fun details =>
       Ok {| status := 500;
             body := Failure "Failed to generate predictions" details |})
  <> Ok {| status := code; body := Batch response |}.
Proof. destruct err; simpl; discriminate. Qed.

(** A response is a complete batch with status 200 or a failure with
    status 500. *)
Lemma GET_Batch (env : Environment) (request : NextRequest)
    (sessions sessions' : Sessions) (code : nat)
    (response : BatchPredictionResponse.t) (events : list io_event) :
  GET env request sessions
  = (Ok {| status := code; body := Batch response |}, sessions', events) ->
  exists timeInfo,
    getCurrentTimeInfo env = Ok timeInfo
    /\ code = 200%nat
    /\ BatchPredictionResponse.hour response
       = resolve (searchParams_get request "hour") (TimeInfo.hour timeInfo)
    /\ BatchPredictionResponse.day response
       = resolve (searchParams_get request "day") (TimeInfo.day timeInfo)
    /\ getWeatherForTime env
         (center Location.latitude (cameraLocations env))
         (center Location.longitude (cameraLocations env))
         (BatchPredictionResponse.hour response)
         (BatchPredictionResponse.day response)
       = Ok (BatchPredictionResponse.weather response)
    /\ getSessions (store env) sessions = (Ok sessions', sessions', events)
    /\ predict_all (stage1 sessions') (stage2 sessions')
         (BatchPredictionResponse.hour response)
         (BatchPredictionResponse.day response)
         (BatchPredictionResponse.weather response)
         (cameraLocations env) []
       = Ok (BatchPredictionResponse.predictions response).
Proof.
  unfold GET. rewrite GET_try_cases. cbv zeta.
  destruct (getCurrentTimeInfo env) as [timeInfo|err];
    [|intros H; injection H as H _ _; destruct (catch_not_Batch _ _ _ H)].
  destruct (getWeatherForTime env _ _ _ _) as [weather|err] eqn:Hw;
    [|intros H; injection H as H _ _; destruct (catch_not_Batch _ _ _ H)].
  destruct (getSessions (store env) sessions) as [[[loaded|err] s'] events']
    eqn:Hs;
    [|intros H; injection H as H _ _; destruct (catch_not_Batch _ _ _ H)].
  destruct (predict_all _ _ _ _ _ _ _) as [predictions|err] eqn:Hp;
    [|intros H; injection H as H _ _; destruct (catch_not_Batch _ _ _ H)].
  intros H. injection H as <- <- <- <-.
  pose proof (getSessions_Ok _ _ _ _ _ Hs) as (-> & _).
  exists timeInfo. simpl. auto 10.
Qed.



(** ** Levels and their numbers *)

Lemma level_gt (a b : CongestionLevel) :
  JS.gt (level_number a) (level_number b) = (ordinal b <? ordinal a)%nat.
Proof. destruct a, b; reflexivity. Qed.

Lemma level_ge (a b : CongestionLevel) :
  JS.ge (level_number a) (level_number b) = (ordinal b <=? ordinal a)%nat.
Proof. destruct a, b; reflexivity. Qed.

(** C1 fails in the program when the first model answers NaN. With a
    stage 1 whose single output is NaN and a stage 2 whose output is 2
    (High), the batch succeeds and every prediction has congestion NaN and
    no label, where the claim asks for High: [runInference] returns
    congestion NaN for stage 1, the comparison [2 > NaN] is false and the
    reduction keeps the first result. Away from NaN the program does what
    the claim says. Over results whose congestion is a level, the
    reduction keeps the first result of greatest ordinal. In every batch
    that succeeds each location has its prediction, in order; the
    prediction carries the congestion and the probability of the result
    of stage 2 when its congestion is greater than that of stage 1, and
    those of stage 1 otherwise, so that on a tie the first result stays;
    when the congestion of stage 1 is not NaN, the congestion of the
    prediction is at least that of stage 1 and at least that of stage 2
    if it is not NaN either; when the congestion of stage 1 is NaN, so is
    that of the prediction. *)
Theorem prediction_max_congestion_NaN :
  (fst (fst (GET (sample_environment
                    (staged_store (constant_session (NumberData [JS.NaN]))
                       (constant_session (BigIntData [2%Z]))))
               (mkRequest []) no_sessions))
   = Ok {| status := 200;
           body :=
             Batch
               (BatchPredictionResponse.mk
                  [ PredictionResult.mk "Times Square"
                      (ratio 40758 1000) (ratio (-73985) 1000)
                      JS.NaN None one;
                    PredictionResult.mk "Brooklyn Bridge"
                      (ratio 40706 1000) (ratio (-73997) 1000)
                      JS.NaN None one ]
                  sample_weather "2024-01-01T09:00:00.000Z"
                  (JS.of_Z 9) (JS.of_Z 3)) |}
   /\ runInference (constant_session (NumberData [JS.NaN])) sample_inputData
      = Ok {| congestion := JS.NaN; probability := one |}
   /\ runInference (constant_session (BigIntData [2%Z])) sample_inputData
      = Ok {| congestion := two; probability := one |}
   /\ JS.gt two JS.NaN = false)
  /\ (forall (first : ModelInferenceResult) (rest : list ModelInferenceResult),
      exists (k : nat) (winner : ModelInferenceResult),
        (first :: rest) !! k = Some winner
        /\ reduce max_congestion (to_result <$> first :: rest)
           = Ok (to_result winner)
        /\ (forall j r, (first :: rest) !! j = Some r ->
              (ordinal (level r) <= ordinal (level winner))%nat)
        /\ (forall j r, (j < k)%nat -> (first :: rest) !! j = Some r ->
              (ordinal (level r) < ordinal (level winner))%nat))
  /\ (forall (env : Environment) (request : NextRequest)
             (sessions sessions' : Sessions)
             (response : BatchPredictionResponse.t)
             (events : list io_event),
        GET env request sessions
        = (Ok {| status := 200; body := Batch response |}, sessions', events) ->
        Forall2
          (fun location p =>
             exists s1 s2 r1 r2,
               stage1 sessions' = Some s1
               /\ stage2 sessions' = Some s2
               /\ runInference s1
                    (inputData_of location
                       (BatchPredictionResponse.hour response)
                       (BatchPredictionResponse.day response)
                       (BatchPredictionResponse.weather response))
                  = Ok r1
               /\ runInference s2
                    (inputData_of location
                       (BatchPredictionResponse.hour response)
                       (BatchPredictionResponse.day response)
                       (BatchPredictionResponse.weather response))
                  = Ok r2
               /\ (JS.lt (congestion r1) (congestion r2) = true ->
                   PredictionResult.congestion p = congestion r2
                   /\ PredictionResult.probability p = probability r2)
               /\ (JS.lt (congestion r1) (congestion r2) = false ->
                   PredictionResult.congestion p = congestion r1
                   /\ PredictionResult.probability p = probability r1)
               /\ (JS.isNaN (congestion r1) = false ->
                   JS.le (congestion r1) (PredictionResult.congestion p) = true
                   /\ (JS.isNaN (congestion r2) = false ->
                       JS.le (congestion r2) (PredictionResult.congestion p)
                       = true))
               /\ (JS.isNaN (congestion r1) = true ->
                   PredictionResult.congestion p = JS.NaN
                   /\ PredictionResult.probability p = probability r1))
          (cameraLocations env)
          (BatchPredictionResponse.predictions response)).
Proof.
  split; [|split].
  - split; [vm_compute; reflexivity|].
    split; [vm_compute; reflexivity|].
    split; [vm_compute; reflexivity | reflexivity].
  - intros first rest.
    destruct (fold_first_max congestion (to_result <$> rest) (to_result first))
      as (k & Hk & Hmax & Hfirst).
    cbv zeta in Hk, Hmax, Hfirst.
    change (to_result first :: (to_result <$> rest))
      with (to_result <$> first :: rest) in Hk, Hmax, Hfirst.
    rewrite list_lookup_fmap in Hk.
    destruct ((first :: rest) !! k) as [winner|] eqn:Hw; [|discriminate].
    simpl in Hk. injection Hk as Hk.
    exists k, winner. split; [exact Hw|]. split.
    { simpl. f_equal. symmetry. exact Hk. }
    rewrite <- Hk in Hmax, Hfirst. split.
    + intros j r Hr.
      assert (H : JS.gt (congestion (to_result r))
                    (congestion (to_result winner)) = false).
      { apply (Hmax j). rewrite list_lookup_fmap, Hr. reflexivity. }
      simpl in H. rewrite level_gt in H. apply Nat.ltb_ge in H. exact H.
    + intros j r Hj Hr.
      assert (H : JS.ge (congestion (to_result r))
                    (congestion (to_result winner)) = false).
      { apply (Hfirst j); [exact Hj|].
        rewrite list_lookup_fmap, Hr. reflexivity. }
      simpl in H. rewrite level_ge in H. apply Nat.leb_gt in H. exact H.
  - intros env request sessions sessions' response events H.
    apply GET_Batch in H as (timeInfo & _ & _ & _ & _ & _ & Hs & Hp).
    apply getSessions_Ok in Hs as (_ & [s1 H1] & [s2 H2] & _).
    rewrite H1, H2 in *.
    apply predict_all_Ok in Hp as (added & -> & Hall). simpl.
    eapply Forall2_impl; [exact Hall|].
    intros location p Hloc. simpl in Hloc.
    destruct (predict_location_carries s1 s2
                (BatchPredictionResponse.hour response)
                (BatchPredictionResponse.day response)
                (BatchPredictionResponse.weather response) location)
      as (r1 & r2 & Hr1 & Hr2 & Hpred).
    rewrite Hpred in Hloc. injection Hloc as <-.
    destruct (max_congestion_order r1 r2) as (Hgt & Hle & Hmax & Hnan).
    exists s1, s2, r1, r2. simpl.
    split; [reflexivity|]. split; [reflexivity|].
    split; [exact Hr1|]. split; [exact Hr2|].
    split; [intros Hlt; rewrite (Hgt Hlt); auto|].
    split; [intros Hlt; rewrite (Hle Hlt); auto|].
    split; [exact Hmax|].
    intros Hn. destruct (Hnan Hn) as [Heq Hc]. rewrite Heq in *. auto.
Qed.

Lemma prediction_max_congestion_NaN_witness :
  Forall2
    (fun location p =>
       PredictionResult.congestion p = two
       /\ PredictionResult.probability p = ratio 9 10)
    (cameraLocations
       (sample_environment
          (staged_store (constant_session (BigIntData [1%Z]))
             (constant_session
                (NumberData [ratio 0 10; ratio 1 10; ratio 9 10])))))
    (BatchPredictionResponse.predictions
       (match fst (fst (GET (sample_environment
                               (staged_store
                                  (constant_session (BigIntData [1%Z]))
                                  (constant_session
                                     (NumberData
                                        [ratio 0 10; ratio 1 10; ratio 9 10]))))
                          (mkRequest []) no_sessions)) with
        | Ok {| body := Batch response |} => response
        | _ => BatchPredictionResponse.mk [] sample_weather "" zero zero
        end)).
Proof.
  pose proof (proj2 (proj2 prediction_max_congestion_NaN)
                (sample_environment
                   (staged_store (constant_session (BigIntData [1%Z]))
                      (constant_session
                         (NumberData [ratio 0 10; ratio 1 10; ratio 9 10]))))
                (mkRequest []) no_sessions
                _ _ _ eq_refl) as H.
  eapply Forall2_impl; [exact H|].
  intros location p (s1 & s2 & r1 & r2 & H1 & H2 & Hr1 & Hr2 & Hgt & _).
  vm_compute in H1. injection H1 as <-.
  vm_compute in H2. injection H2 as <-.
  vm_compute in Hr1. injection Hr1 as <-.
  vm_compute in Hr2. injection Hr2 as <-.
  apply Hgt. reflexivity.
Defined.

(** ** [parseInt] on decimal digits *)

Lemma digit_value_decimal (d : nat) :
  (d < 10)%nat -> digit_value 10 (digit_char d) = Some (Z.of_nat d).
Proof.
  intros Hd. do 10 (destruct d as [|d]; [reflexivity|]). lia.
Qed.

Lemma parse_digits_decimal (ds : list nat) (acc : Z) :
  Forall (fun d => (d < 10)%nat) ds ->
  parse_digits 10 (digits_string ds) (Some acc)
  = Some (fold_left (fun acc d => (10 * acc + Z.of_nat d)%Z) ds acc).
Proof.
  intros Hds. revert acc. induction Hds as [|d ds Hd _ IH]; intros acc.
  - reflexivity.
  - simpl digits_string. cbn [parse_digits].
    rewrite digit_value_decimal by exact Hd. simpl default. apply IH.
Qed.

Lemma digits_string_prefix (d : nat) (ds : list nat) :
  Forall (fun d => (d < 10)%nat) (d :: ds) ->
  trim_start (digits_string (d :: ds)) = digits_string (d :: ds)
  /\ parse_sign (digits_string (d :: ds)) = (false, digits_string (d :: ds))
  /\ parse_radix (digits_string (d :: ds)) = (10%Z, digits_string (d :: ds)).
Proof.
  intros Hall. inversion Hall as [|? ? Hd Hds]; subst.
  simpl digits_string.
  do 10 (destruct d as [|d];
         [split; [reflexivity|]; split; [reflexivity|];
          destruct ds as [|d' ds]; [reflexivity|];
          inversion Hds as [|? ? Hd' _]; subst;
          do 10 (destruct d' as [|d']; [reflexivity|]); lia|]).
  lia.
Qed.

(** A non-empty string of decimal digits parses to the integer it
    denotes. *)
Lemma parseInt_decimal (d : nat) (ds : list nat) :
  Forall (fun d => (d < 10)%nat) (d :: ds) ->
  parseInt (digits_string (d :: ds)) = JS.of_Z (digits_value (d :: ds)).
Proof.
  intros Hall. destruct (digits_string_prefix d ds Hall) as (Ht & Hs & Hr).
  inversion Hall as [|? ? Hd Hds]; subst.
  unfold parseInt. rewrite Ht, Hs, Hr.
  simpl digits_string. cbn [parse_digits].
  rewrite digit_value_decimal by exact Hd. simpl default.
  rewrite parse_digits_decimal by exact Hds. reflexivity.
Qed.

Example parseInt_17 : parseInt "17" = JS.of_Z 17.
Proof. reflexivity. Qed.

Example parseInt_prefix : parseInt " -42abc" = JS.of_Z (-42).
Proof. reflexivity. Qed.

Example parseInt_abc : parseInt "abc" = JS.NaN.
Proof. reflexivity. Qed.

(** White space beyond one byte is skipped as well: a no-break space
    (U+00A0) and a line separator (U+2028) in front of the digits. *)
Example parseInt_no_break_space :
  parseInt (String (ascii_of_nat 194) (String (ascii_of_nat 160) "17"))
  = JS.of_Z 17.
Proof. reflexivity. Qed.

Example parseInt_line_separator :
  parseInt (String (ascii_of_nat 226)
              (String (ascii_of_nat 128) (String (ascii_of_nat 168) "-8")))
  = JS.of_Z (-8).
Proof. reflexivity. Qed.

(** ** [path.join] *)

Example path_join_trailing_separator :
  path_join ["/app/"; "public"; "models"; "model_stage1.onnx"]
  = "/app/public/models/model_stage1.onnx".
Proof. reflexivity. Qed.

Example path_join_root :
  path_join ["/"; "public"; "models"; "model_stage2.onnx"]
  = "/public/models/model_stage2.onnx".
Proof. reflexivity. Qed.

Example path_join_dots :
  path_join ["/srv/app/."; "public"; ".."; "public"; "models"]
  = "/srv/app/public/models".
Proof. reflexivity. Qed.



(** C6. The vector built for a location holds the eight features in the
    order latitude, longitude, hour, day, temperature, precipitation, rain,
    wind speed, and the session is run on the tensor of shape [1, 8] made
    of these eight values, in this order, as 32-bit floats. It is the
    vector inference gets: the prediction of a location carries the
    reduction of what [runInference] returns for stage 1 and for stage 2 on
    these eight values, and in a batch that succeeds every location has
    such a prediction, in order, built with the hour, the day and the
    weather of the response. *)
Theorem feature_vector_order :
  (forall (location : Location.t) (hour day : number)
          (weather : WeatherData.t),
      inputData_of location hour day weather
      = [ Location.latitude location; Location.longitude location; hour; day;
          WeatherData.temperature_2m weather;
          WeatherData.precipitation weather;
          WeatherData.rain weather; WeatherData.wind_speed_10m weather ]
      /\ length (inputData_of location hour day weather) = 8%nat
      /\ forall session : InferenceSession,
           run_model session (inputData_of location hour day weather)
           = bind
               (run session
                  {[ first_name (inputNames session) :=
                       mkTensor "float32"
                         (NumberData
                            [ JS.fround (Location.latitude location);
                              JS.fround (Location.longitude location);
                              JS.fround hour;
                              JS.fround day;
                              JS.fround (WeatherData.temperature_2m weather);
                              JS.fround (WeatherData.precipitation weather);
                              JS.fround (WeatherData.rain weather);
                              JS.fround (WeatherData.wind_speed_10m weather) ])
                         [1; 8]%Z ]})
               (fun output =>
                  match output !! first_name (outputNames session) with
                  | Some outputTensor => Ok (data outputTensor)
                  | None =>
                      Throw (ErrorObject "TypeError"
                               "Cannot read properties of undefined (reading 'data')")
                  end))
  /\ (forall (s1 s2 : InferenceSession) (hour day : number)
             (weather : WeatherData.t) (location : Location.t),
        exists r1 r2,
          runInference s1
            [ Location.latitude location; Location.longitude location;
              hour; day;
              WeatherData.temperature_2m weather;
              WeatherData.precipitation weather;
              WeatherData.rain weather; WeatherData.wind_speed_10m weather ]
          = Ok r1
          /\ runInference s2
               [ Location.latitude location; Location.longitude location;
                 hour; day;
                 WeatherData.temperature_2m weather;
                 WeatherData.precipitation weather;
                 WeatherData.rain weather; WeatherData.wind_speed_10m weather ]
             = Ok r2
          /\ predict_location (Some s1) (Some s2) hour day weather location
             = Ok {| PredictionResult.location := Location.name location;
                     PredictionResult.latitude := Location.latitude location;
                     PredictionResult.longitude := Location.longitude location;
                     PredictionResult.congestion :=
                       congestion (max_congestion r1 r2);
                     PredictionResult.congestionLabel :=
                       CONGESTION_LABELS (congestion (max_congestion r1 r2));
                     PredictionResult.probability :=
                       probability (max_congestion r1 r2) |})
  /\ (forall (env : Environment) (request : NextRequest)
             (sessions sessions' : Sessions)
             (response : BatchPredictionResponse.t)
             (events : list io_event),
        GET env request sessions
        = (Ok {| status := 200; body := Batch response |}, sessions', events) ->
        exists s1 s2,
          stage1 sessions' = Some s1
          /\ stage2 sessions' = Some s2
          /\ Forall2
               (fun location p =>
                  exists r1 r2,
                    runInference s1
                      [ Location.latitude location;
                        Location.longitude location;
                        BatchPredictionResponse.hour response;
                        BatchPredictionResponse.day response;
                        WeatherData.temperature_2m
                          (BatchPredictionResponse.weather response);
                        WeatherData.precipitation
                          (BatchPredictionResponse.weather response);
                        WeatherData.rain
                          (BatchPredictionResponse.weather response);
                        WeatherData.wind_speed_10m
                          (BatchPredictionResponse.weather response) ]
                    = Ok r1
                    /\ runInference s2
                         [ Location.latitude location;
                           Location.longitude location;
                           BatchPredictionResponse.hour response;
                           BatchPredictionResponse.day response;
                           WeatherData.temperature_2m
                             (BatchPredictionResponse.weather response);
                           WeatherData.precipitation
                             (BatchPredictionResponse.weather response);
                           WeatherData.rain
                             (BatchPredictionResponse.weather response);
                           WeatherData.wind_speed_10m
                             (BatchPredictionResponse.weather response) ]
                       = Ok r2
                    /\ p = {| PredictionResult.location :=
                                Location.name location;
                              PredictionResult.latitude :=
                                Location.latitude location;
                              PredictionResult.longitude :=
                                Location.longitude location;
                              PredictionResult.congestion :=
                                congestion (max_congestion r1 r2);
                              PredictionResult.congestionLabel :=
                                CONGESTION_LABELS
                                  (congestion (max_congestion r1 r2));
                              PredictionResult.probability :=
                                probability (max_congestion r1 r2) |})
               (cameraLocations env)
               (BatchPredictionResponse.predictions response)).
Proof.
  split; [|split].
  - intros location hour day weather.
    split; [reflexivity|]. split; reflexivity.
  - intros s1 s2 hour day weather location.
    exact (predict_location_carries s1 s2 hour day weather location).
  - intros env request sessions sessions' response events H.
    apply GET_Batch in H as (timeInfo & _ & _ & _ & _ & _ & Hs & Hp).
    apply getSessions_Ok in Hs as (_ & [s1 H1] & [s2 H2] & _).
    exists s1, s2. split; [exact H1|]. split; [exact H2|].
    rewrite H1, H2 in Hp.
    apply predict_all_Ok in Hp as (added & -> & Hall). simpl.
    eapply Forall2_impl; [exact Hall|].
    intros location p Hloc. simpl in Hloc.
    destruct (predict_location_carries s1 s2
                (BatchPredictionResponse.hour response)
                (BatchPredictionResponse.day response)
                (BatchPredictionResponse.weather response) location)
      as (r1 & r2 & Hr1 & Hr2 & Hpred).
    rewrite Hpred in Hloc. injection Hloc as <-.
    exists r1, r2. split; [exact Hr1|]. split; [exact Hr2 | reflexivity].
Qed.

Lemma feature_vector_order_witness :
  exists p rest,
    BatchPredictionResponse.predictions
      (match fst (fst (GET (sample_environment
                              (staged_store echo_session echo_session))
                         (mkRequest [("hour", "50")]) no_sessions)) with
       | Ok {| body := Batch response |} => response
       | _ => BatchPredictionResponse.mk [] sample_weather "" zero zero
       end)
    = p :: rest
    /\ PredictionResult.location p = "Times Square"
    /\ PredictionResult.congestion p = two
    /\ PredictionResult.probability p = JS.of_Z 50.
Proof.
  destruct (proj2 (proj2 feature_vector_order)
              (sample_environment (staged_store echo_session echo_session))
              (mkRequest [("hour", "50")]) no_sessions _ _ _ eq_refl)
    as (s1 & s2 & H1 & H2 & Hall).
  apply Forall2_cons_inv_l in Hall
    as (p & rest & (r1 & r2 & Hr1 & Hr2 & Hp) & _ & Heq).
  exists p, rest. split; [exact Heq|].
  vm_compute in H1. injection H1 as <-.
  vm_compute in H2. injection H2 as <-.
  vm_compute in Hr1. injection Hr1 as <-.
  vm_compute in Hr2. injection Hr2 as <-.
  rewrite Hp. split; [reflexivity|]. split; vm_compute; reflexivity.
Defined.

(** C7, as the specification states it, fails: a value that is present
    and does not parse as an integer is not replaced by the hour of the
    time provider. With [hour=abc] and a provider that says 9 the resolved
    hour is NaN. *)
Lemma resolved_hour_not_provider :
  ~ (forall (env : Environment) (request : NextRequest) (sessions sessions' : Sessions)
            (response : BatchPredictionResponse.t) (events : list io_event)
            (timeInfo : TimeInfo.t),
        getCurrentTimeInfo env = Ok timeInfo ->
        GET env request sessions
        = (Ok {| status := 200; body := Batch response |}, sessions', events) ->
        BatchPredictionResponse.hour response
        = match searchParams_get request "hour" with
          | Some s =>
              if JS.isNaN (parseInt s) then TimeInfo.hour timeInfo
              else parseInt s
          | None => TimeInfo.hour timeInfo
          end).
Proof.
  intros H.
  pose proof (H (sample_environment healthy_store)
                (mkRequest [("hour", "abc")]) no_sessions _ _ _
                (TimeInfo.mk (JS.of_Z 9) (JS.of_Z 3)) eq_refl eq_refl) as Hh.
  vm_compute in Hh. discriminate Hh.
Qed.

(** C7, amended. The resolved hour and day are [parseInt] of the value the
    caller supplied when that value is present and not empty, and the hour
    and day of the time provider when the value is absent or empty. A
    string of decimal digits parses to the integer it denotes; a value such
    as [abc], which does not parse as an integer, resolves to NaN and not
    to the value of the time provider. *)
Theorem resolved_hour_and_day :
  (forall (env : Environment) (request : NextRequest)
          (sessions sessions' : Sessions)
          (response : BatchPredictionResponse.t) (events : list io_event),
      GET env request sessions
      = (Ok {| status := 200; body := Batch response |}, sessions', events) ->
      exists timeInfo,
        getCurrentTimeInfo env = Ok timeInfo
        /\ BatchPredictionResponse.hour response
           = match searchParams_get request "hour" with
             | Some s => if String.eqb s "" then TimeInfo.hour timeInfo
                         else parseInt s
             | None => TimeInfo.hour timeInfo
             end
        /\ BatchPredictionResponse.day response
           = match searchParams_get request "day" with
             | Some s => if String.eqb s "" then TimeInfo.day timeInfo
                         else parseInt s
             | None => TimeInfo.day timeInfo
             end)
  /\ (forall (d : nat) (ds : list nat),
        Forall (fun d => (d < 10)%nat) (d :: ds) ->
        parseInt (digits_string (d :: ds)) = JS.of_Z (digits_value (d :: ds))
        /\ String.eqb (digits_string (d :: ds)) "" = false)
  /\ parseInt "abc" = JS.NaN.
Proof.
  split; [|split; [|reflexivity]].
  - intros env request sessions sessions' response events H.
    apply GET_Batch in H as (timeInfo & Ht & _ & Hh & Hd & _).
    exists timeInfo. split; [exact Ht|]. rewrite Hh, Hd.
    unfold resolve, truthy. split.
    + destruct (searchParams_get request "hour") as [s|]; [|reflexivity].
      destruct (String.eqb s ""); reflexivity.
    + destruct (searchParams_get request "day") as [s|]; [|reflexivity].
      destruct (String.eqb s ""); reflexivity.
  - intros d ds Hall. split; [apply parseInt_decimal, Hall | reflexivity].
Qed.

Lemma resolved_hour_and_day_witness :
  exists timeInfo,
    getCurrentTimeInfo (sample_environment healthy_store) = Ok timeInfo
    /\ JS.of_Z 17 = parseInt "17"
    /\ parseInt (digits_string [1; 7]%nat) = JS.of_Z (digits_value [1; 7]%nat).
Proof.
  destruct (proj1 resolved_hour_and_day (sample_environment healthy_store)
              (mkRequest [("hour", "17")]) no_sessions _ _ _ eq_refl)
    as (timeInfo & Ht & Hh & Hd).
  exists timeInfo. split; [exact Ht|]. split; [exact Hh|].
  apply (proj1 (proj2 resolved_hour_and_day)).
  repeat constructor.
Defined.

(** C9 fails in the program when what the [try] block throws is [null] or
    [undefined]: the [catch] clause reads [err.message] first, reading a
    property of [null] or of [undefined] throws a [TypeError], and the
    handler throws it in turn instead of giving the response with the
    generic message and the details. A weather provider that rejects with
    [null] and an artifact refused with [undefined] show it, although
    [String(err)], which the clause falls back on, is defined on both.
    For every other thrown value the program does what the claim says.
    The details are the message of what was thrown or, when it has none,
    its string.
    When the results of the models for a location are empty the loop over
    the locations throws the error "No models loaded". Whatever the [try]
    block throws, be it the failure of the weather provider, of the load
    of the artifacts or of the loop, goes through the [catch] clause, which
    gives status 500 with the generic message and the details; a response
    that carries predictions carries one per location. *)
Theorem batch_failure_reporting :
  (GET (failing_weather_environment NullValue) (mkRequest []) no_sessions
   = (Throw (ErrorObject "TypeError"
               "Cannot read properties of null (reading 'message')"),
      no_sessions, [])
   /\ GET (sample_environment (rejecting_store UndefinedValue))
        (mkRequest []) no_sessions
      = (Throw (ErrorObject "TypeError"
                  "Cannot read properties of undefined (reading 'message')"),
         no_sessions,
         [ReadFile "/app/public/models/model_stage1.onnx";
          ReadFile "/app/public/models/model_stage2.onnx";
          CreateSession []; CreateSession []])
   /\ String_of NullValue = "null"
   /\ String_of UndefinedValue = "undefined"
   /\ String_of (ErrorObject "Error" "No models loaded")
      = "Error: No models loaded"
   /\ String_of (ErrorObject "" "No models loaded") = "No models loaded"
   /\ String_of (ErrorObject "Error" "") = "Error")
  /\ (forall err,
        details_of err
        = match err with
          | ErrorObject name message =>
              Ok (if String.eqb message "" then name else message)
          | OtherValue text => Ok text
          | NullValue =>
              Throw (ErrorObject "TypeError"
                       "Cannot read properties of null (reading 'message')")
          | UndefinedValue =>
              Throw (ErrorObject "TypeError"
                       "Cannot read properties of undefined (reading 'message')")
          end)
  /\ (forall stage1 stage2 hour day weather before location after predictions,
        run_models stage1 stage2 (inputData_of location hour day weather)
        = Ok [] ->
        predict_all stage1 stage2 hour day weather (before ++ location :: after)
          predictions
        = Throw (ErrorObject "Error" "No models loaded"))
  /\ (forall env request sessions sessions' err events,
        GET_try env request sessions = (Throw err, sessions', events) ->
        GET env request sessions
        = (bind (details_of err)
             (fun details =>
                Ok {| status := 500;
                      body := Failure "Failed to generate predictions"
                                details |}),
           sessions', events))
  /\ (forall env request sessions timeInfo err,
        getCurrentTimeInfo env = Ok timeInfo ->
        getWeatherForTime env
          (center Location.latitude (cameraLocations env))
          (center Location.longitude (cameraLocations env))
          (resolve (searchParams_get request "hour") (TimeInfo.hour timeInfo))
          (resolve (searchParams_get request "day") (TimeInfo.day timeInfo))
        = Throw err ->
        GET env request sessions
        = (bind (details_of err)
             (fun details =>
                Ok {| status := 500;
                      body := Failure "Failed to generate predictions"
                                details |}),
           sessions, []))
  /\ (forall env request sessions timeInfo weather err sessions' events,
        getCurrentTimeInfo env = Ok timeInfo ->
        getWeatherForTime env
          (center Location.latitude (cameraLocations env))
          (center Location.longitude (cameraLocations env))
          (resolve (searchParams_get request "hour") (TimeInfo.hour timeInfo))
          (resolve (searchParams_get request "day") (TimeInfo.day timeInfo))
        = Ok weather ->
        getSessions (store env) sessions = (Throw err, sessions', events) ->
        GET env request sessions
        = (bind (details_of err)
             (fun details =>
                Ok {| status := 500;
                      body := Failure "Failed to generate predictions"
                                details |}),
           sessions', events))
  /\ (forall env request sessions timeInfo weather loaded err sessions' events,
        getCurrentTimeInfo env = Ok timeInfo ->
        getWeatherForTime env
          (center Location.latitude (cameraLocations env))
          (center Location.longitude (cameraLocations env))
          (resolve (searchParams_get request "hour") (TimeInfo.hour timeInfo))
          (resolve (searchParams_get request "day") (TimeInfo.day timeInfo))
        = Ok weather ->
        getSessions (store env) sessions = (Ok loaded, sessions', events) ->
        predict_all (stage1 loaded) (stage2 loaded)
          (resolve (searchParams_get request "hour") (TimeInfo.hour timeInfo))
          (resolve (searchParams_get request "day") (TimeInfo.day timeInfo))
          weather (cameraLocations env) []
        = Throw err ->
        GET env request sessions
        = (bind (details_of err)
             (fun details =>
                Ok {| status := 500;
                      body := Failure "Failed to generate predictions"
                                details |}),
           sessions', events))
  /\ (forall env request sessions code response sessions' events,
        GET env request sessions
        = (Ok {| status := code; body := Batch response |}, sessions', events) ->
        length (BatchPredictionResponse.predictions response)
        = length (cameraLocations env)).
Proof.
  split.
  { split; [vm_compute; reflexivity|]. split; [vm_compute; reflexivity|].
    split; [reflexivity|]. split; [reflexivity|].
    split; [reflexivity|]. split; reflexivity. }
  split.
  { intros [name message| text | |]; try reflexivity.
    unfold details_of, String_of.
    destruct (String.eqb message ""); reflexivity. }
  split.
  { intros stage1 stage2 hour day weather before location after predictions H.
    assert (Hnone : stage1 = None /\ stage2 = None).
    { unfold run_models in H.
      destruct stage1 as [s1|]; [exfalso|destruct stage2 as [s2|]; [exfalso|]].
      - destruct (runInference_total s1 (inputData_of location hour day weather))
          as [r1 H1].
        rewrite H1 in H. simpl in H.
        destruct stage2 as [s2|]; [|discriminate H].
        destruct (runInference_total s2 (inputData_of location hour day weather))
          as [r2 H2].
        rewrite H2 in H. discriminate H.
      - destruct (runInference_total s2 (inputData_of location hour day weather))
          as [r2 H2].
        rewrite H2 in H. discriminate H.
      - auto. }
    destruct Hnone as [-> ->].
    destruct before as [|first before]; reflexivity. }
  split; [intros; apply GET_Throw; assumption|].
  split; [|split; [|split]].
  - intros env request sessions timeInfo err Ht Hw. apply GET_Throw.
    rewrite GET_try_cases. cbv zeta. rewrite Ht, Hw. reflexivity.
  - intros env request sessions timeInfo weather err s' events Ht Hw Hs.
    apply GET_Throw.
    rewrite GET_try_cases. cbv zeta. rewrite Ht, Hw, Hs. reflexivity.
  - intros env request sessions timeInfo weather loaded err s' events
      Ht Hw Hs Hp.
    apply GET_Throw.
    rewrite GET_try_cases. cbv zeta. rewrite Ht, Hw, Hs, Hp. reflexivity.
  - intros env request sessions code response s' events H.
    apply GET_Batch in H as (timeInfo & _ & _ & _ & _ & _ & _ & Hp).
    apply predict_all_Ok in Hp as (added & Heq & Hall).
    rewrite Heq. simpl. symmetry. eapply Forall2_length, Hall.
Qed.

Lemma batch_failure_reporting_witness :
  GET (sample_environment broken_store) (mkRequest []) no_sessions
  = (Ok {| status := 500;
           body := Failure "Failed to generate predictions"
                     "ENOENT: no such file or directory" |},
     no_sessions,
     [ReadFile "/app/public/models/model_stage1.onnx";
      ReadFile "/app/public/models/model_stage2.onnx"]).
Proof.
  apply (proj1 (proj2 (proj2 (proj2 batch_failure_reporting)))
           (sample_environment broken_store) (mkRequest []) no_sessions
           no_sessions
           (ErrorObject "Error" "ENOENT: no such file or directory")).
  vm_compute. reflexivity.
Defined.

(** C10. When [getSessions] returns, both sessions are present: every
    location gets exactly two results, the loop never throws "No models
    loaded" and it ends with its predictions. *)
Theorem loaded_sessions_both_present (store : ModelStore)
    (sessions loaded sessions' : Sessions) (events : list io_event) :
  getSessions store sessions = (Ok loaded, sessions', events) ->
  is_Some (stage1 loaded) /\ is_Some (stage2 loaded)
  /\ (forall inputData, exists r1 r2,
        run_models (stage1 loaded) (stage2 loaded) inputData = Ok [r1; r2])
  /\ (forall hour day weather location,
        predict_location (stage1 loaded) (stage2 loaded) hour day weather
          location
        <> Throw (ErrorObject "Error" "No models loaded"))
  /\ (forall hour day weather locations, exists predictions,
        predict_all (stage1 loaded) (stage2 loaded) hour day weather
          locations []
        = Ok predictions).
Proof.
  intros H. apply getSessions_Ok in H as (_ & [s1 H1] & [s2 H2] & _).
  rewrite H1, H2. split; [eexists; reflexivity|].
  split; [eexists; reflexivity|]. split; [|split].
  - intros inputData.
    destruct (run_models_both s1 s2 inputData) as (r1 & r2 & _ & _ & Hr).
    eauto.
  - intros hour day weather location.
    destruct (predict_location_both s1 s2 hour day weather location)
      as (r1 & r2 & final & _ & _ & ->).
    discriminate.
  - intros hour day weather locations. apply predict_all_both.
Qed.

Lemma loaded_sessions_both_present_witness :
  is_Some (stage1 (snd (fst (getSessions healthy_store no_sessions))))
  /\ is_Some (stage2 (snd (fst (getSessions healthy_store no_sessions)))).
Proof.
  destruct (loaded_sessions_both_present healthy_store no_sessions
              (snd (fst (getSessions healthy_store no_sessions)))
              (snd (fst (getSessions healthy_store no_sessions)))
              (snd (getSessions healthy_store no_sessions)) eq_refl)
    as (H1 & H2 & _).
  split; [exact H1 | exact H2].
Defined.

(** * Further properties of the route *)

(** ** [runInference] and the decoding *)

Lemma of_nat_not_negative (i : nat) :
  JS.lt (JS.of_Z (Z.of_nat i)) zero = false.
Proof.
  destruct i as [|i]; [reflexivity|].
  change (Z.of_nat (S i)) with (Zpos (Pos.of_succ_nat i)).
  destruct (of_Z_pos_shape (Pos.of_succ_nat i))
    as [(m & -> & _)|[(m & e & -> & _)| ->]]; reflexivity.
Qed.

Lemma level_not_negative (c : number) :
  is_CongestionLevel c -> JS.lt c zero = false.
Proof. intros [-> | [-> | ->]]; reflexivity. Qed.

Lemma decode_not_negative (d : TensorData) :
  JS.lt (congestion (decode d)) zero = false.
Proof.
  destruct (Nat.leb_spec 3 (data_length d)) as [Hlen|Hlen].
  - destruct (decode_argmax d Hlen) as (i & _ & -> & _). simpl.
    apply of_nat_not_negative.
  - destruct (JS.isNaN (getVal d 0)) eqn:Hnan.
    + rewrite decode_scalar by exact Hlen. simpl.
      destruct (getVal d 0); try discriminate Hnan. reflexivity.
    + destruct (decode_scalar_level d Hlen Hnan) as [Hc _].
      apply level_not_negative, Hc.
Qed.

(** X1. A feature vector that does not have exactly eight elements cannot
    be made into the tensor of shape [1, 8]: the session is not run,
    whatever it is, and the result is the fallback. *)
Theorem runInference_wrong_length (session : InferenceSession)
    (inputData : list number) :
  length inputData <> 8%nat ->
  (exists e, run_model session inputData = Throw e)
  /\ runInference session inputData = Ok fallback.
Proof.
  intros Hlen.
  assert (H : exists e, run_model session inputData = Throw e).
  { unfold run_model, new_Tensor, Float32Array_from. simpl data_length.
    rewrite length_map.
    destruct (Z.eqb_spec (foldr Z.mul 1%Z [1%Z; 8%Z])
                (Z.of_nat (length inputData))) as [Heq|_].
    - exfalso. apply Hlen. simpl in Heq. lia.
    - eexists. reflexivity. }
  split; [exact H|]. destruct H as [e He].
  apply (runInference_Throw _ _ _ He).
Qed.

Lemma runInference_wrong_length_witness :
  runInference (constant_session (BigIntData [2%Z])) [one; two] = Ok fallback.
Proof.
  apply (runInference_wrong_length (constant_session (BigIntData [2%Z]))
           [one; two]).
  simpl. lia.
Defined.

(** X2. Whatever [runInference] returns, its congestion is never less than
    zero: the index of the argmax branch, the clamp of the scalar branch
    and the fallback all stay at or above 0 (or are NaN, which is less than
    nothing). *)
Theorem runInference_congestion_not_negative (session : InferenceSession)
    (inputData : list number) (r : InferenceResult) :
  runInference session inputData = Ok r ->
  JS.lt (congestion r) zero = false.
Proof.
  intros Hr. destruct (run_model session inputData) as [d|e] eqn:Hrun.
  - rewrite (runInference_Ok _ _ _ Hrun) in Hr. injection Hr as <-.
    apply decode_not_negative.
  - rewrite (runInference_Throw _ _ _ Hrun) in Hr. injection Hr as <-.
    reflexivity.
Qed.

Lemma runInference_congestion_not_negative_witness :
  JS.lt zero zero = false.
Proof.
  apply (runInference_congestion_not_negative
           (constant_session (NumberData [JS.of_Z (-5)])) sample_inputData
           {| congestion := zero; probability := one |}).
  reflexivity.
Defined.

(** X3. With exactly three output values the congestion is one of the
    levels 0, 1 and 2, whatever the values are, NaN and infinities
    included. *)
Theorem runInference_three_scores_level (session : InferenceSession)
    (inputData : list number) (outputData : TensorData) :
  run_model session inputData = Ok outputData ->
  data_length outputData = 3%nat ->
  exists r, runInference session inputData = Ok r
            /\ is_CongestionLevel (congestion r).
Proof.
  intros Hrun Hlen. exists (decode outputData).
  split; [apply runInference_Ok, Hrun|].
  destruct (decode_argmax outputData) as (i & Hi & -> & _); [lia|].
  simpl. apply of_nat_level. lia.
Qed.

Lemma runInference_three_scores_level_witness :
  exists r,
    runInference
      (constant_session (NumberData [JS.NaN; S754_infinity false; two]))
      sample_inputData = Ok r
    /\ is_CongestionLevel (congestion r).
Proof.
  apply (runInference_three_scores_level _ _
           (NumberData [JS.NaN; S754_infinity false; two])).
  - reflexivity.
  - reflexivity.
Defined.

(** X4. In the argmax branch a first score that is NaN is never replaced:
    the result is congestion 0 with probability NaN, whatever the other
    scores are. *)
Theorem runInference_first_score_NaN (session : InferenceSession)
    (inputData : list number) (outputData : TensorData) :
  run_model session inputData = Ok outputData ->
  (3 <= data_length outputData)%nat ->
  JS.isNaN (getVal outputData 0) = true ->
  runInference session inputData
  = Ok {| congestion := zero; probability := JS.NaN |}.
Proof.
  intros Hrun Hlen Hnan. rewrite (runInference_Ok _ _ _ Hrun). f_equal.
  unfold decode. destruct (Nat.leb_spec 3 (data_length outputData)); [|lia].
  unfold argmax. destruct (getVal outputData 0); try discriminate Hnan.
  rewrite argmax_from_NaN. reflexivity.
Qed.

Lemma runInference_first_score_NaN_witness :
  runInference (constant_session (NumberData [JS.NaN; one; two]))
    sample_inputData
  = Ok {| congestion := zero; probability := JS.NaN |}.
Proof.
  apply (runInference_first_score_NaN _ _ (NumberData [JS.NaN; one; two])).
  - reflexivity.
  - simpl. lia.
  - reflexivity.
Defined.

(** X5. A model that answers with an integer label, a BigInt array of one
    or two elements, gets that label clamped between 0 and 2 as congestion
    and 1 as probability; labels beyond the exactly representable integers
    included. *)
Theorem runInference_label (session : InferenceSession)
    (inputData : list number) (z : Z) (rest : list Z) :
  run_model session inputData = Ok (BigIntData (z :: rest)) ->
  (length (z :: rest) < 3)%nat ->
  runInference session inputData
  = Ok {| congestion := JS.of_Z (Z.max 0 (Z.min 2 z)); probability := one |}.
Proof.
  intros Hrun Hlen. rewrite (runInference_Ok _ _ _ Hrun).
  rewrite decode_scalar_BigInt by exact Hlen. reflexivity.
Qed.

Lemma runInference_label_witness :
  runInference (constant_session (BigIntData [7%Z])) sample_inputData
  = Ok {| congestion := two; probability := one |}.
Proof.
  apply (runInference_label (constant_session (BigIntData [7%Z]))
           sample_inputData 7 []).
  - reflexivity.
  - simpl. lia.
Defined.

(** X6. The scalar branch on a finite value [x = (-1)^s * m * 2^e] with a
    fraction ([e < 0]): the congestion is 0 when [x < 1/2], 1 when
    [1/2 <= x < 3/2] and 2 when [3/2 <= x]; a half rounds up. The
    comparisons are written on [2 * m] against [2^(-e)], that is on [2 * x]
    against 1 and 3. *)
Theorem decode_scalar_thresholds (s : bool) (m : positive) (e : Z)
    (rest : list number) :
  (e < 0)%Z ->
  (length (S754_finite s m e :: rest) < 3)%nat ->
  let r := decode (NumberData (S754_finite s m e :: rest)) in
  let x2 := (2 * cond_Zopp s (Zpos m))%Z in
  let u := (2 ^ (- e))%Z in
  probability r = one
  /\ ((x2 < u)%Z -> congestion r = zero)
  /\ ((u <= x2 < 3 * u)%Z -> congestion r = one)
  /\ ((3 * u <= x2)%Z -> congestion r = two).
Proof.
  intros He Hlen r x2 u. subst r.
  rewrite decode_scalar_finite by assumption. simpl congestion.
  simpl probability. fold x2. fold u.
  assert (Hu : (0 < u)%Z) by (apply Z.pow_pos_nonneg; lia).
  assert (Hpow : (2 ^ (1 - e) = 2 * u)%Z).
  { unfold u. replace (1 - e)%Z with (Z.succ (- e)) by lia.
    apply Z.pow_succ_r. lia. }
  rewrite Hpow. split; [reflexivity|]. split; [|split]; intros Hx.
  - assert (Hn : ((x2 + u) / (2 * u) < 1)%Z)
      by (apply Z.div_lt_upper_bound; lia).
    replace (Z.max 0 (Z.min 2 ((x2 + u) / (2 * u)))) with 0%Z by lia.
    reflexivity.
  - assert (Hn1 : (1 <= (x2 + u) / (2 * u))%Z)
      by (apply Z.div_le_lower_bound; lia).
    assert (Hn2 : ((x2 + u) / (2 * u) < 2)%Z)
      by (apply Z.div_lt_upper_bound; lia).
    replace (Z.max 0 (Z.min 2 ((x2 + u) / (2 * u)))) with 1%Z by lia.
    reflexivity.
  - assert (Hn : (2 <= (x2 + u) / (2 * u))%Z)
      by (apply Z.div_le_lower_bound; lia).
    replace (Z.max 0 (Z.min 2 ((x2 + u) / (2 * u)))) with 2%Z by lia.
    reflexivity.
Qed.

Lemma decode_scalar_thresholds_witness :
  congestion (decode (NumberData [S754_finite false 6755399441055744 (-52)]))
  = two.
Proof.
  apply (decode_scalar_thresholds false 6755399441055744 (-52) []).
  - lia.
  - simpl. lia.
  - vm_compute. discriminate.
Defined.

(** X21. When one score is strictly greater than every other score, its
    index is the congestion returned and the score is the probability, at
    whatever index it stands: with more than three scores the congestion
    can be 3 or more. *)
Theorem runInference_strict_maximum (session : InferenceSession)
    (inputData : list number) (outputData : TensorData) (i : nat) :
  run_model session inputData = Ok outputData ->
  (3 <= data_length outputData)%nat ->
  (i < data_length outputData)%nat ->
  (forall j, (j < data_length outputData)%nat -> j <> i ->
     JS.gt (getVal outputData i) (getVal outputData j) = true) ->
  runInference session inputData
  = Ok {| congestion := JS.of_Z (Z.of_nat i);
          probability := getVal outputData i |}.
Proof.
  intros Hrun Hlen Hi Hmax.
  destruct (decode_argmax outputData Hlen) as (k & Hk & Hdec & Hno & _).
  rewrite (runInference_Ok _ _ _ Hrun), Hdec.
  destruct (Nat.eq_dec k i) as [->|Hne]; [reflexivity|].
  exfalso. pose proof (Hmax k Hk Hne) as H1.
  rewrite (Hno i Hi) in H1. discriminate H1.
Qed.

Lemma runInference_strict_maximum_witness :
  runInference
    (constant_session (NumberData [ratio 1 10; ratio 2 10; ratio 1 10;
                                   ratio 6 10]))
    sample_inputData
  = Ok {| congestion := JS.of_Z 3; probability := ratio 6 10 |}.
Proof.
  apply (runInference_strict_maximum _ _
           (NumberData [ratio 1 10; ratio 2 10; ratio 1 10; ratio 6 10])
           3%nat).
  - reflexivity.
  - simpl. lia.
  - simpl. lia.
  - intros j Hj Hne.
    destruct j as [|[|[|[|j]]]]; try reflexivity;
      [exfalso; apply Hne; reflexivity | simpl in Hj; lia].
Defined.

(** ** The reduction over the results *)

Lemma reduce_keeps_first (first : InferenceResult)
    (rest : list InferenceResult) :
  (forall r, r ∈ rest -> JS.gt (congestion r) (congestion first) = false) ->
  fold_left max_congestion rest first = first.
Proof.
  induction rest as [|r rest IH]; intros Hall; [reflexivity|].
  simpl. unfold max_congestion at 2.
  rewrite (Hall r) by (left; reflexivity).
  apply IH. intros r' Hr'. apply Hall. right. exact Hr'.
Qed.

Lemma reduce_typed (first : ModelInferenceResult)
    (rest : list ModelInferenceResult) :
  exists winner,
    winner ∈ first :: rest
    /\ reduce max_congestion (to_result <$> first :: rest)
       = Ok (to_result winner)
    /\ forall r, r ∈ first :: rest ->
         (ordinal (level r) <= ordinal (level winner))%nat.
Proof.
  destruct (fold_first_max congestion (to_result <$> rest) (to_result first))
    as (k & Hk & Hmax & _).
  cbv zeta in Hk, Hmax.
  change (to_result first :: (to_result <$> rest))
    with (to_result <$> first :: rest) in Hk, Hmax.
  rewrite list_lookup_fmap in Hk.
  destruct ((first :: rest) !! k) as [winner|] eqn:Hw; [|discriminate].
  simpl in Hk. injection Hk as Hk. exists winner.
  split; [eapply list_elem_of_lookup_2, Hw|]. split.
  { simpl. f_equal. symmetry. exact Hk. }
  rewrite <- Hk in Hmax. intros r Hr.
  apply list_elem_of_lookup_1 in Hr as [j Hj].
  assert (H : JS.gt (congestion (to_result r))
                (congestion (to_result winner)) = false).
  { apply (Hmax j). rewrite list_lookup_fmap, Hj. reflexivity. }
  simpl in H. rewrite level_gt in H. apply Nat.ltb_ge in H. exact H.
Qed.

Lemma ordinal_inj (a b : CongestionLevel) : ordinal a = ordinal b -> a = b.
Proof. destruct a, b; simpl; intros H; try reflexivity; discriminate H. Qed.

(** X7. The reduction returns one of the results it was given, as it is:
    congestion and probability are never mixed from two results. On no
    result at all it throws. *)
Theorem reduce_selects_a_result :
  (forall (first : InferenceResult) (rest : list InferenceResult),
      exists final,
        reduce max_congestion (first :: rest) = Ok final
        /\ final ∈ first :: rest)
  /\ exists e, reduce max_congestion [] = Throw e.
Proof.
  split; [|eexists; reflexivity].
  intros first rest.
  destruct (fold_first_max congestion rest first) as (k & Hk & _).
  cbv zeta in Hk. eexists. split; [reflexivity|].
  eapply list_elem_of_lookup_2, Hk.
Qed.

(** X8. The first result stays unless a later one has a strictly greater
    congestion: with results that all have the same congestion, or of which
    none exceeds the first, the reduction returns the first result. *)
Theorem reduce_first_unless_exceeded (first : InferenceResult)
    (rest : list InferenceResult) :
  (forall r, r ∈ rest -> JS.gt (congestion r) (congestion first) = false) ->
  reduce max_congestion (first :: rest) = Ok first.
Proof.
  intros Hall. simpl. f_equal. apply reduce_keeps_first, Hall.
Qed.

Lemma reduce_first_unless_exceeded_witness :
  reduce max_congestion
    [ {| congestion := one; probability := ratio 6 10 |};
      {| congestion := one; probability := ratio 9 10 |};
      {| congestion := zero; probability := one |} ]
  = Ok {| congestion := one; probability := ratio 6 10 |}.
Proof.
  apply (reduce_first_unless_exceeded
           {| congestion := one; probability := ratio 6 10 |}
           [ {| congestion := one; probability := ratio 9 10 |};
             {| congestion := zero; probability := one |} ]).
  intros r Hr. apply list_elem_of_In in Hr.
  destruct Hr as [<- | [<- | []]]; reflexivity.
Defined.

(** X9. A congestion that is NaN wins no comparison and loses none: when the
    first result has congestion NaN it is the one returned, whatever the
    others say, and a later result with congestion NaN is passed over as if
    it were not in the list. *)
Theorem reduce_NaN (first : InferenceResult) (rest : list InferenceResult) :
  (JS.isNaN (congestion first) = true ->
   reduce max_congestion (first :: rest) = Ok first)
  /\ reduce max_congestion (first :: rest)
     = reduce max_congestion
         (first :: List.filter (fun r => negb (JS.isNaN (congestion r))) rest).
Proof.
  split.
  - intros Hnan. apply reduce_first_unless_exceeded. intros r _.
    destruct (congestion first); try discriminate Hnan. reflexivity.
  - simpl. f_equal. revert first.
    induction rest as [|r rest IH]; intros first; [reflexivity|].
    simpl. destruct (JS.isNaN (congestion r)) eqn:Hr; simpl.
    + assert (Hkeep : max_congestion first r = first).
      { unfold max_congestion.
        destruct (congestion r); try discriminate Hr.
        destruct (congestion first); reflexivity. }
      rewrite Hkeep. apply IH.
    + apply IH.
Qed.

Lemma reduce_NaN_witness :
  reduce max_congestion
    [ {| congestion := JS.NaN; probability := one |};
      {| congestion := two; probability := one |} ]
  = Ok {| congestion := JS.NaN; probability := one |}.
Proof.
  apply (proj1 (reduce_NaN {| congestion := JS.NaN; probability := one |}
                  [ {| congestion := two; probability := one |} ])).
  reflexivity.
Defined.

(** X10. On results whose congestion is a level, the congestion of the
    reduction does not depend on the order of the results: two lists that
    are permutations of each other reduce to the same congestion. *)
Theorem reduce_congestion_order_independent
    (a b : ModelInferenceResult) (l l' : list ModelInferenceResult) :
  a :: l ≡ₚ b :: l' ->
  exists r r',
    reduce max_congestion (to_result <$> a :: l) = Ok r
    /\ reduce max_congestion (to_result <$> b :: l') = Ok r'
    /\ congestion r = congestion r'.
Proof.
  intros Hperm.
  destruct (reduce_typed a l) as (w & Hw & Hr & Hmax).
  destruct (reduce_typed b l') as (w' & Hw' & Hr' & Hmax').
  exists (to_result w), (to_result w').
  split; [exact Hr|]. split; [exact Hr'|]. simpl. unfold level_number.
  do 2 f_equal.
  assert (H1 : (ordinal (level w) <= ordinal (level w'))%nat).
  { apply Hmax'. rewrite <- Hperm. exact Hw. }
  assert (H2 : (ordinal (level w') <= ordinal (level w))%nat).
  { apply Hmax. rewrite Hperm. exact Hw'. }
  lia.
Qed.

Lemma reduce_congestion_order_independent_witness :
  exists r r',
    reduce max_congestion
      (to_result <$> [mkModelResult Moderate one; mkModelResult High zero])
    = Ok r
    /\ reduce max_congestion
         (to_result <$> [mkModelResult High zero; mkModelResult Moderate one])
       = Ok r'
    /\ congestion r = congestion r'.
Proof.
  apply (reduce_congestion_order_independent
           (mkModelResult Moderate one) (mkModelResult High zero)
           [mkModelResult High zero] [mkModelResult Moderate one]).
  apply Permutation_swap.
Defined.

(** ** One location *)

Lemma runInference_not_negative_gt (session : InferenceSession)
    (inputData : list number) (r : InferenceResult) :
  runInference session inputData = Ok r ->
  JS.gt zero (congestion r) = false.
Proof.
  intros Hr. destruct (run_model session inputData) as [d|e] eqn:Hrun.
  - rewrite (runInference_Ok _ _ _ Hrun) in Hr. injection Hr as <-.
    apply decode_not_negative.
  - rewrite (runInference_Throw _ _ _ Hrun) in Hr. injection Hr as <-.
    reflexivity.
Qed.

Lemma predict_location_of_results (stage1 stage2 : option InferenceSession)
    (hour day : number) (weather : WeatherData.t) (location : Location.t)
    (first : InferenceResult) (rest : list InferenceResult) :
  run_models stage1 stage2 (inputData_of location hour day weather)
  = Ok (first :: rest) ->
  predict_location stage1 stage2 hour day weather location
  = Ok {| PredictionResult.location := Location.name location;
          PredictionResult.latitude := Location.latitude location;
          PredictionResult.longitude := Location.longitude location;
          PredictionResult.congestion :=
            congestion (fold_left max_congestion rest first);
          PredictionResult.congestionLabel :=
            CONGESTION_LABELS
              (congestion (fold_left max_congestion rest first));
          PredictionResult.probability :=
            probability (fold_left max_congestion rest first) |}.
Proof.
  intros H. unfold predict_location. rewrite H. reflexivity.
Qed.

(** X11. The failure of one model does not fail the location, and the two
    models are not treated alike. When the run of stage 2 fails, the
    prediction is exactly the result of stage 1. When the run of stage 1
    fails, the prediction is the result of stage 2 only if its congestion
    is above 0; otherwise it is the fallback of stage 1, congestion 0 with
    probability 0, whatever probability stage 2 reported. When both fail,
    the prediction is congestion 0 with probability 0. *)
Theorem predict_location_model_failure (s1 s2 : InferenceSession)
    (hour day : number) (weather : WeatherData.t) (location : Location.t) :
  let inputData := inputData_of location hour day weather in
  exists r1 r2 p,
    runInference s1 inputData = Ok r1
    /\ runInference s2 inputData = Ok r2
    /\ predict_location (Some s1) (Some s2) hour day weather location = Ok p
    /\ ((exists e, run_model s2 inputData = Throw e) ->
        PredictionResult.congestion p = congestion r1
        /\ PredictionResult.probability p = probability r1)
    /\ ((exists e, run_model s1 inputData = Throw e) ->
        if JS.gt (congestion r2) zero
        then PredictionResult.congestion p = congestion r2
             /\ PredictionResult.probability p = probability r2
        else PredictionResult.congestion p = zero
             /\ PredictionResult.probability p = zero).
Proof.
  intros inputData.
  destruct (run_models_both s1 s2 inputData) as (r1 & r2 & H1 & H2 & Hrun).
  exists r1, r2. eexists. split; [exact H1|]. split; [exact H2|].
  split; [apply predict_location_of_results, Hrun|]. simpl. split.
  - intros [e He]. rewrite (runInference_Throw _ _ _ He) in H2.
    injection H2 as <-. unfold max_congestion.
    change (congestion fallback) with zero.
    rewrite (runInference_not_negative_gt _ _ _ H1). auto.
  - intros [e He]. rewrite (runInference_Throw _ _ _ He) in H1.
    injection H1 as <-. unfold max_congestion.
    change (congestion fallback) with zero.
    destruct (JS.gt (congestion r2) zero); auto.
Qed.

Lemma predict_location_model_failure_witness :
  exists p,
    predict_location (Some failing_session)
      (Some (constant_session (BigIntData [0%Z])))
      (JS.of_Z 9) (JS.of_Z 3) sample_weather sample_location = Ok p
    /\ PredictionResult.congestion p = zero
    /\ PredictionResult.probability p = zero.
Proof.
  destruct (predict_location_model_failure failing_session
              (constant_session (BigIntData [0%Z]))
              (JS.of_Z 9) (JS.of_Z 3) sample_weather sample_location)
    as (r1 & r2 & p & H1 & H2 & Hp & _ & Hfail).
  exists p. split; [exact Hp|].
  vm_compute in H2. injection H2 as <-.
  apply Hfail. eexists. reflexivity.
Defined.

(** X12. With a single session the loop body does not aggregate: the
    prediction carries the congestion and probability of that model's
    result, for stage 1 alone as for stage 2 alone. *)
Theorem predict_location_single_model (s : InferenceSession)
    (hour day : number) (weather : WeatherData.t) (location : Location.t) :
  exists r p1 p2,
    runInference s (inputData_of location hour day weather) = Ok r
    /\ predict_location (Some s) None hour day weather location = Ok p1
    /\ predict_location None (Some s) hour day weather location = Ok p2
    /\ PredictionResult.congestion p1 = congestion r
    /\ PredictionResult.probability p1 = probability r
    /\ p2 = p1.
Proof.
  destruct (runInference_total s (inputData_of location hour day weather))
    as [r Hr].
  exists r. unfold predict_location, run_models. rewrite Hr. simpl.
  eexists _, _. repeat split; reflexivity.
Qed.

(** ** The whole batch *)

(** X13. In a batch that succeeds the predictions follow the locations, one
    for one and in order, each under the name and the coordinates of its
    location. *)
Theorem predictions_follow_locations (env : Environment)
    (request : NextRequest) (sessions sessions' : Sessions)
    (response : BatchPredictionResponse.t) (events : list io_event) :
  GET env request sessions
  = (Ok {| status := 200; body := Batch response |}, sessions', events) ->
  Forall2
    (fun location p =>
       PredictionResult.location p = Location.name location
       /\ PredictionResult.latitude p = Location.latitude location
       /\ PredictionResult.longitude p = Location.longitude location)
    (cameraLocations env)
    (BatchPredictionResponse.predictions response).
Proof.
  intros H. apply GET_Batch in H as (timeInfo & _ & _ & _ & _ & _ & Hs & Hp).
  apply getSessions_Ok in Hs as (_ & [s1 H1] & [s2 H2] & _).
  rewrite H1, H2 in Hp.
  apply predict_all_Ok in Hp as (added & -> & Hall). simpl.
  eapply Forall2_impl; [exact Hall|].
  intros location p Hloc. simpl in Hloc.
  destruct (predict_location_both s1 s2
              (BatchPredictionResponse.hour response)
              (BatchPredictionResponse.day response)
              (BatchPredictionResponse.weather response) location)
    as (r1 & r2 & final & _ & _ & Hpred).
  rewrite Hpred in Hloc. injection Hloc as <-. auto.
Qed.

Lemma predictions_follow_locations_witness :
  Forall2
    (fun location p =>
       PredictionResult.location p = Location.name location
       /\ PredictionResult.latitude p = Location.latitude location
       /\ PredictionResult.longitude p = Location.longitude location)
    (cameraLocations (sample_environment healthy_store))
    (BatchPredictionResponse.predictions
       (match fst (fst (GET (sample_environment healthy_store)
                          (mkRequest []) no_sessions)) with
        | Ok {| body := Batch response |} => response
        | _ => BatchPredictionResponse.mk [] sample_weather "" zero zero
        end)).
Proof.
  apply (predictions_follow_locations (sample_environment healthy_store)
           (mkRequest []) no_sessions _ _ _ eq_refl).
Defined.

(** X14. A batch fails only above the models: when the response is a
    failure, the time provider threw, or the weather provider threw, or the
    load of the sessions threw, and the details are those of what was
    thrown. Nothing a session does, once loaded, fails the batch. *)
Theorem GET_fails_only_upstream (env : Environment) (request : NextRequest)
    (sessions sessions' : Sessions) (code : nat) (error details : string)
    (events : list io_event) :
  GET env request sessions
  = (Ok {| status := code; body := Failure error details |},
     sessions', events) ->
  (exists err, getCurrentTimeInfo env = Throw err
               /\ details_of err = Ok details)
  \/ (exists timeInfo err,
        getCurrentTimeInfo env = Ok timeInfo
        /\ getWeatherForTime env
             (center Location.latitude (cameraLocations env))
             (center Location.longitude (cameraLocations env))
             (resolve (searchParams_get request "hour")
                (TimeInfo.hour timeInfo))
             (resolve (searchParams_get request "day")
                (TimeInfo.day timeInfo))
           = Throw err
        /\ details_of err = Ok details)
  \/ (exists err,
        getSessions (store env) sessions = (Throw err, sessions', events)
        /\ details_of err = Ok details).
Proof.
  unfold GET. rewrite GET_try_cases. cbv zeta.
  destruct (getCurrentTimeInfo env) as [timeInfo|err].
  - destruct (getWeatherForTime env _ _ _ _) as [weather|err] eqn:Hw.
    + destruct (getSessions (store env) sessions)
        as [[[loaded|err] s'] events'] eqn:Hs.
      * apply getSessions_Ok in Hs as (_ & [s1 H1] & [s2 H2] & _).
        rewrite H1, H2.
        destruct (predict_all_both s1 s2
                    (resolve (searchParams_get request "hour")
                       (TimeInfo.hour timeInfo))
                    (resolve (searchParams_get request "day")
                       (TimeInfo.day timeInfo))
                    weather (cameraLocations env) []) as [ps ->].
        intros H. discriminate H.
      * destruct (details_of err) as [text|e] eqn:Hd; simpl;
          intros H; [|discriminate H].
        injection H as _ _ <- <- <-. right; right. eauto.
    + destruct (details_of err) as [text|e] eqn:Hd; simpl;
        intros H; [|discriminate H].
      injection H as _ _ <- <- <-. right; left. eauto.
  - destruct (details_of err) as [text|e] eqn:Hd; simpl;
      intros H; [|discriminate H].
    injection H as _ _ <- <- <-. left. eauto.
Qed.

Lemma GET_fails_only_upstream_witness :
  (exists err, getCurrentTimeInfo (sample_environment corrupt_store) = Throw err
               /\ details_of err = Ok "failed to load model")
  \/ (exists timeInfo err,
        getCurrentTimeInfo (sample_environment corrupt_store) = Ok timeInfo
        /\ getWeatherForTime (sample_environment corrupt_store)
             (center Location.latitude
                (cameraLocations (sample_environment corrupt_store)))
             (center Location.longitude
                (cameraLocations (sample_environment corrupt_store)))
             (resolve (searchParams_get (mkRequest []) "hour")
                (TimeInfo.hour timeInfo))
             (resolve (searchParams_get (mkRequest []) "day")
                (TimeInfo.day timeInfo))
           = Throw err
        /\ details_of err = Ok "failed to load model")
  \/ (exists err,
        getSessions (store (sample_environment corrupt_store)) no_sessions
        = (Throw err, no_sessions,
           [ReadFile "/app/public/models/model_stage1.onnx";
            ReadFile "/app/public/models/model_stage2.onnx";
            CreateSession []; CreateSession []])
        /\ details_of err = Ok "failed to load model").
Proof.
  apply (GET_fails_only_upstream (sample_environment corrupt_store)
           (mkRequest []) no_sessions no_sessions 500
           "Failed to generate predictions").
  reflexivity.
Defined.

(** X15. With no location configured the centre of the network is 0 / 0:
    the weather provider is asked for the point (NaN, NaN), the sessions
    are loaded all the same, and the batch succeeds with no prediction. *)
Theorem GET_no_locations (env : Environment) (request : NextRequest)
    (sessions loaded sessions' : Sessions) (timeInfo : TimeInfo.t)
    (weather : WeatherData.t) (events : list io_event) :
  cameraLocations env = [] ->
  getCurrentTimeInfo env = Ok timeInfo ->
  getWeatherForTime env JS.NaN JS.NaN
    (resolve (searchParams_get request "hour") (TimeInfo.hour timeInfo))
    (resolve (searchParams_get request "day") (TimeInfo.day timeInfo))
  = Ok weather ->
  getSessions (store env) sessions = (Ok loaded, sessions', events) ->
  GET env request sessions
  = (Ok {| status := 200;
           body :=
             Batch
               {| BatchPredictionResponse.predictions := [];
                  BatchPredictionResponse.weather := weather;
                  BatchPredictionResponse.timestamp := now_ISOString env;
                  BatchPredictionResponse.hour :=
                    resolve (searchParams_get request "hour")
                      (TimeInfo.hour timeInfo);
                  BatchPredictionResponse.day :=
                    resolve (searchParams_get request "day")
                      (TimeInfo.day timeInfo) |} |},
     sessions', events).
Proof.
  intros Hloc Ht Hw Hs. unfold GET. rewrite GET_try_cases. cbv zeta.
  rewrite Ht, Hloc.
  change (center Location.latitude []) with JS.NaN.
  change (center Location.longitude []) with JS.NaN.
  rewrite Hw, Hs. reflexivity.
Qed.

Lemma GET_no_locations_witness :
  match fst (fst (GET
    {| cameraLocations := [];
       getCurrentTimeInfo := Ok (TimeInfo.mk (JS.of_Z 9) (JS.of_Z 3));
       getWeatherForTime := fun _ _ _ _ => Ok sample_weather;
       now_ISOString := "2024-01-01T09:00:00.000Z";
       store := healthy_store |} (mkRequest []) no_sessions)) with
  | Ok response => status response
  | Throw _ => 0%nat
  end
  = 200%nat.
Proof.
  rewrite (GET_no_locations
    {| cameraLocations := [];
       getCurrentTimeInfo := Ok (TimeInfo.mk (JS.of_Z 9) (JS.of_Z 3));
       getWeatherForTime := fun _ _ _ _ => Ok sample_weather;
       now_ISOString := "2024-01-01T09:00:00.000Z";
       store := healthy_store |} (mkRequest []) no_sessions
    _ _ (TimeInfo.mk (JS.of_Z 9) (JS.of_Z 3)) sample_weather _
    eq_refl eq_refl eq_refl eq_refl).
  reflexivity.
Defined.

(** ** The artifacts and the cache *)

(** X16. What a call of [getSessions] does to the artifacts when the
    sessions are not both resident: it starts both reads; if one of them
    fails it creates no session; otherwise it starts both creations, each
    from the bytes read. These are the only three traces of a call. *)
Theorem getSessions_trace (store : ModelStore) (s : Sessions) :
  let events := snd (getSessions store s) in
  (events = []
   /\ is_Some (stage1 s) /\ is_Some (stage2 s))
  \/ (events = [ReadFile (modelPath1 store); ReadFile (modelPath2 store)]
      /\ ((exists e, readFile store (modelPath1 store) = Throw e)
          \/ (exists e, readFile store (modelPath2 store) = Throw e))
      /\ exists e, fst (fst (getSessions store s)) = Throw e)
  \/ (exists buffer1 buffer2,
        readFile store (modelPath1 store) = Ok buffer1
        /\ readFile store (modelPath2 store) = Ok buffer2
        /\ events = [ReadFile (modelPath1 store); ReadFile (modelPath2 store);
                     CreateSession buffer1; CreateSession buffer2]).
Proof.
  cbv zeta. destruct (resident_dec s) as [[H1 H2]|Hnot].
  - left. rewrite getSessions_resident by assumption. auto.
  - right. rewrite getSessions_absent by assumption.
    unfold getSessions_try.
    destruct (readFile store (modelPath1 store)) as [b1|e1];
      destruct (readFile store (modelPath2 store)) as [b2|e2]; simpl.
    + right. exists b1, b2. split; [reflexivity|]. split; [reflexivity|].
      destruct (Promise_all2 _ _ _) as [[c1 c2]|e]; reflexivity.
    + left. split; [reflexivity|]. split; [right|]; eexists; reflexivity.
    + left. split; [reflexivity|]. split; [left|]; eexists; reflexivity.
    + left. split; [reflexivity|]. split; [left; eexists; reflexivity|].
      destruct (reads_second_first store); eexists; reflexivity.
Qed.

(** X17. After a load that succeeds, stage 1 is the session created from
    the bytes of [model_stage1.onnx] and stage 2 the one created from the
    bytes of [model_stage2.onnx]. *)
Theorem getSessions_binds_stages (store : ModelStore)
    (s loaded s' : Sessions) (events : list io_event) :
  ~ (is_Some (stage1 s) /\ is_Some (stage2 s)) ->
  getSessions store s = (Ok loaded, s', events) ->
  exists buffer1 buffer2 session1 session2,
    readFile store (path_join [cwd store; "public"; "models";
                               "model_stage1.onnx"]) = Ok buffer1
    /\ readFile store (path_join [cwd store; "public"; "models";
                                  "model_stage2.onnx"]) = Ok buffer2
    /\ create store buffer1 = Ok session1
    /\ create store buffer2 = Ok session2
    /\ stage1 loaded = Some session1
    /\ stage2 loaded = Some session2
    /\ s' = loaded.
Proof.
  intros Hnot H. rewrite getSessions_absent in H by exact Hnot.
  apply getSessions_try_Ok in H
    as (b1 & b2 & c1 & c2 & Hr1 & Hr2 & Hc1 & Hc2 & -> & -> & _).
  exists b1, b2, c1, c2. auto 10.
Qed.

Lemma getSessions_binds_stages_witness :
  exists buffer1 buffer2 session1 session2,
    readFile healthy_store
      (path_join [cwd healthy_store; "public"; "models"; "model_stage1.onnx"])
    = Ok buffer1
    /\ readFile healthy_store
         (path_join [cwd healthy_store; "public"; "models";
                     "model_stage2.onnx"])
       = Ok buffer2
    /\ create healthy_store buffer1 = Ok session1
    /\ create healthy_store buffer2 = Ok session2
    /\ stage1 (snd (fst (getSessions healthy_store no_sessions)))
       = Some session1
    /\ stage2 (snd (fst (getSessions healthy_store no_sessions)))
       = Some session2
    /\ snd (fst (getSessions healthy_store no_sessions))
       = snd (fst (getSessions healthy_store no_sessions)).
Proof.
  apply (getSessions_binds_stages healthy_store no_sessions
           (snd (fst (getSessions healthy_store no_sessions)))
           (snd (fst (getSessions healthy_store no_sessions)))
           (snd (getSessions healthy_store no_sessions))).
  - intros [[x Hx] _]. discriminate Hx.
  - reflexivity.
Defined.

Lemma serve_resident (requests : list (Environment * NextRequest))
    (s : Sessions) :
  is_Some (stage1 s) -> is_Some (stage2 s) ->
  exists responses,
    serve requests s = (responses, s, [])
    /\ length responses = length requests.
Proof.
  intros H1 H2. induction requests as [|[env request] rest IH].
  - exists []. split; reflexivity.
  - destruct IH as (responses & IH & Hlen). simpl.
    assert (HG : exists response, GET env request s = (response, s, [])).
    { unfold GET. rewrite GET_try_cases. cbv zeta.
      destruct (getCurrentTimeInfo env) as [ti|err];
        [|eexists; reflexivity].
      destruct (getWeatherForTime env _ _ _ _) as [w|err];
        [|eexists; reflexivity].
      rewrite (getSessions_resident (store env) s H1 H2).
      destruct (predict_all _ _ _ _ _ _ _); eexists; reflexivity. }
    destruct HG as [response ->]. rewrite IH.
    exists (response :: responses). simpl. rewrite Hlen. auto.
Qed.

(** X18. Once a request has succeeded, no later request touches the
    artifacts or changes the cache, however many requests follow and
    whatever their environment is; each of them still has its outcome. *)
Theorem serve_after_success (env : Environment) (request : NextRequest)
    (s s1 : Sessions) (response : BatchPredictionResponse.t)
    (events1 : list io_event) (later : list (Environment * NextRequest)) :
  GET env request s
  = (Ok {| status := 200; body := Batch response |}, s1, events1) ->
  exists responses,
    serve later s1 = (responses, s1, [])
    /\ length responses = length later.
Proof.
  intros H. apply GET_Batch in H as (timeInfo & _ & _ & _ & _ & _ & Hs & _).
  apply getSessions_Ok in Hs as (_ & H1 & H2 & _).
  apply serve_resident; assumption.
Qed.

Lemma serve_after_success_witness :
  exists responses,
    serve [(sample_environment broken_store, mkRequest []);
           (sample_environment corrupt_store, mkRequest [("hour", "7")])]
      (snd (fst (GET (sample_environment healthy_store) (mkRequest [])
                   no_sessions)))
    = (responses,
       snd (fst (GET (sample_environment healthy_store) (mkRequest [])
                   no_sessions)),
       [])
    /\ length responses = 2%nat.
Proof.
  exact (serve_after_success (sample_environment healthy_store)
           (mkRequest []) no_sessions _ _ _
           [(sample_environment broken_store, mkRequest []);
            (sample_environment corrupt_store, mkRequest [("hour", "7")])]
           eq_refl).
Defined.

(** X19. A request whose load fails leaves the cache as it found it, and
    the requests after it load again: served from the empty cache, a
    request that fails on its artifacts followed by one whose artifacts are
    sound reads the two files twice and ends with both sessions
    resident. *)
Theorem serve_retries_after_failure (env1 env2 : Environment)
    (request1 request2 : NextRequest) (timeInfo1 timeInfo2 : TimeInfo.t)
    (weather1 weather2 : WeatherData.t) (err : thrown)
    (events1 events2 : list io_event) (loaded s2 : Sessions) :
  getCurrentTimeInfo env1 = Ok timeInfo1 ->
  getWeatherForTime env1
    (center Location.latitude (cameraLocations env1))
    (center Location.longitude (cameraLocations env1))
    (resolve (searchParams_get request1 "hour") (TimeInfo.hour timeInfo1))
    (resolve (searchParams_get request1 "day") (TimeInfo.day timeInfo1))
  = Ok weather1 ->
  getSessions (store env1) no_sessions = (Throw err, no_sessions, events1) ->
  getCurrentTimeInfo env2 = Ok timeInfo2 ->
  getWeatherForTime env2
    (center Location.latitude (cameraLocations env2))
    (center Location.longitude (cameraLocations env2))
    (resolve (searchParams_get request2 "hour") (TimeInfo.hour timeInfo2))
    (resolve (searchParams_get request2 "day") (TimeInfo.day timeInfo2))
  = Ok weather2 ->
  getSessions (store env2) no_sessions = (Ok loaded, s2, events2) ->
  exists outcome1 response2,
    serve [(env1, request1); (env2, request2)] no_sessions
    = ([outcome1; Ok response2], s2, events1 ++ events2)
    /\ outcome1
       = bind (details_of err)
           (fun details =>
              Ok {| status := 500;
                    body := Failure "Failed to generate predictions"
                              details |})
    /\ (forall response1, outcome1 = Ok response1 ->
          status response1 = 500%nat)
    /\ status response2 = 200%nat
    /\ is_Some (stage1 s2) /\ is_Some (stage2 s2)
    /\ exists rest1 buffer1 buffer2,
         events1 = ReadFile (modelPath1 (store env1))
                   :: ReadFile (modelPath2 (store env1)) :: rest1
         /\ events2 = [ReadFile (modelPath1 (store env2));
                       ReadFile (modelPath2 (store env2));
                       CreateSession buffer1; CreateSession buffer2].
Proof.
  intros Ht1 Hw1 Hs1 Ht2 Hw2 Hs2.
  pose proof (getSessions_Ok _ _ _ _ _ Hs2) as (-> & [c1 Hc1] & [c2 Hc2] & Hev).
  destruct (predict_all_both c1 c2
              (resolve (searchParams_get request2 "hour")
                 (TimeInfo.hour timeInfo2))
              (resolve (searchParams_get request2 "day")
                 (TimeInfo.day timeInfo2))
              weather2 (cameraLocations env2) []) as [ps Hps].
  assert (HG1 : GET env1 request1 no_sessions
                = (bind (details_of err)
                     (fun details =>
                        Ok {| status := 500;
                              body := Failure "Failed to generate predictions"
                                        details |}),
                   no_sessions, events1)).
  { apply GET_Throw. rewrite GET_try_cases. cbv zeta.
    rewrite Ht1, Hw1, Hs1. reflexivity. }
  assert (HG2 : exists response,
                  GET env2 request2 no_sessions
                  = (Ok {| status := 200; body := Batch response |},
                     s2, events2)).
  { unfold GET. rewrite GET_try_cases. cbv zeta.
    rewrite Ht2, Hw2, Hs2, Hc1, Hc2, Hps. eexists. reflexivity. }
  destruct HG2 as [response HG2].
  cbn [serve]. rewrite HG1. cbn iota beta. rewrite HG2. cbn iota beta.
  eexists _, _. split; [rewrite app_nil_r; reflexivity|].
  split; [reflexivity|]. split.
  { intros response1 H1. destruct (details_of err) as [text|e];
      simpl in H1; [|discriminate H1].
    injection H1 as <-. reflexivity. }
  split; [reflexivity|].
  split; [eexists; exact Hc1|]. split; [eexists; exact Hc2|].
  assert (Hempty : ~ (is_Some (stage1 no_sessions)
                      /\ is_Some (stage2 no_sessions)))
    by (intros [[x Hx] _]; discriminate Hx).
  destruct (getSessions_loads (store env1) no_sessions Hempty) as [rest1 Hr1].
  rewrite Hs1 in Hr1. simpl in Hr1.
  destruct Hev as [[Heq _] | (b1 & b2 & ->)].
  - exfalso. apply Hempty. rewrite <- Heq, Hc1, Hc2.
    split; eexists; reflexivity.
  - exists rest1, b1, b2. auto.
Qed.

Lemma serve_retries_after_failure_witness :
  exists response1 response2,
    serve [(sample_environment corrupt_store, mkRequest []);
           (sample_environment healthy_store, mkRequest [])] no_sessions
    = ([Ok response1; Ok response2],
       snd (fst (getSessions healthy_store no_sessions)),
       snd (getSessions corrupt_store no_sessions)
       ++ snd (getSessions healthy_store no_sessions))
    /\ status response1 = 500%nat
    /\ status response2 = 200%nat.
Proof.
  destruct (serve_retries_after_failure
              (sample_environment corrupt_store)
              (sample_environment healthy_store)
              (mkRequest []) (mkRequest [])
              (TimeInfo.mk (JS.of_Z 9) (JS.of_Z 3))
              (TimeInfo.mk (JS.of_Z 9) (JS.of_Z 3))
              sample_weather sample_weather
              (ErrorObject "Error" "failed to load model")
              (snd (getSessions corrupt_store no_sessions))
              (snd (getSessions healthy_store no_sessions))
              (snd (fst (getSessions healthy_store no_sessions)))
              (snd (fst (getSessions healthy_store no_sessions)))
              eq_refl eq_refl eq_refl eq_refl eq_refl eq_refl)
    as (outcome1 & response2 & H & -> & H1 & H2 & _).
  eexists _, response2. split; [exact H|].
  split; [reflexivity | exact H2].
Defined.

(** ** The hour and day of the query string *)

Lemma digits_string_app_trim (d : nat) (ds : list nat) (tail : string) :
  Forall (fun d => (d < 10)%nat) (d :: ds) ->
  trim_start (digits_string (d :: ds) ++ tail)%string
  = (digits_string (d :: ds) ++ tail)%string
  /\ parse_sign (digits_string (d :: ds) ++ tail)%string
     = (false, (digits_string (d :: ds) ++ tail)%string).
Proof.
  intros Hall. inversion Hall as [|? ? Hd _]; subst.
  simpl digits_string.
  do 10 (destruct d as [|d]; [split; reflexivity|]). lia.
Qed.

Lemma parse_digits_stops (ds : list nat) (c : ascii) (rest : string)
    (acc : Z) :
  Forall (fun d => (d < 10)%nat) ds ->
  digit_value 10 c = None ->
  parse_digits 10 (digits_string ds ++ String c rest)%string (Some acc)
  = Some (fold_left (fun acc d => (10 * acc + Z.of_nat d)%Z) ds acc).
Proof.
  intros Hds Hc. revert acc. induction Hds as [|d ds Hd _ IH]; intros acc.
  - simpl. rewrite Hc. reflexivity.
  - change (digits_string (d :: ds) ++ String c rest)%string
      with (String (digit_char d) (digits_string ds ++ String c rest)).
    cbn [parse_digits].
    rewrite digit_value_decimal by exact Hd. simpl default. apply IH.
Qed.

Lemma parse_radix_decimal (d : nat) (ds : list nat) (c : ascii)
    (rest : string) :
  Forall (fun d => (d < 10)%nat) (d :: ds) ->
  c <> "x"%char -> c <> "X"%char ->
  parse_radix (digits_string (d :: ds) ++ String c rest)%string
  = (10%Z, (digits_string (d :: ds) ++ String c rest)%string).
Proof.
  intros Hall Hx HX. inversion Hall as [|? ? Hd Hds]; subst.
  simpl digits_string.
  destruct d as [|d].
  - destruct ds as [|d' ds].
    + simpl. destruct c as [[] [] [] [] [] [] [] []]; try reflexivity;
        exfalso; [apply Hx | apply HX]; reflexivity.
    + inversion Hds as [|? ? Hd' _]; subst. simpl digits_string.
      do 10 (destruct d' as [|d']; [reflexivity|]). lia.
  - do 9 (destruct d as [|d]; [reflexivity|]). lia.
Qed.

(** X20. A value that starts with decimal digits resolves to the integer
    they denote, whatever follows them: the characters from the first one
    that is not a digit are ignored (a letter [x] or [X] right after a
    leading zero apart, which announces hexadecimal digits). A minus sign
    in front of the digits gives the opposite number. No range is imposed
    on the hour or the day. *)
Theorem resolve_leading_integer (d : nat) (ds : list nat) (c : ascii)
    (rest : string) (current : number) :
  Forall (fun d => (d < 10)%nat) (d :: ds) ->
  digit_value 10 c = None ->
  c <> "x"%char -> c <> "X"%char ->
  resolve (Some (digits_string (d :: ds) ++ String c rest)%string) current
  = JS.of_Z (digits_value (d :: ds))
  /\ resolve (Some (String "-" (digits_string (d :: ds)))) current
     = SFopp (JS.of_Z (digits_value (d :: ds))).
Proof.
  intros Hall Hc Hx HX.
  destruct (digits_string_app_trim d ds (String c rest) Hall) as [Ht Hs].
  pose proof (parse_radix_decimal d ds c rest Hall Hx HX) as Hr.
  destruct (digits_string_prefix d ds Hall) as (_ & _ & Hr').
  inversion Hall as [|? ? Hd Hds]; subst. split.
  - unfold resolve, truthy.
    assert (Hne : String.eqb
                    (digits_string (d :: ds) ++ String c rest)%string ""
                  = false) by reflexivity.
    rewrite Hne. simpl negb. cbv iota.
    unfold parseInt. rewrite Ht, Hs, Hr.
    change (digits_string (d :: ds) ++ String c rest)%string
      with (String (digit_char d) (digits_string ds ++ String c rest)).
    cbn [parse_digits].
    rewrite digit_value_decimal by exact Hd. simpl default.
    rewrite parse_digits_stops by assumption. reflexivity.
  - unfold resolve, truthy. simpl negb. cbv iota.
    unfold parseInt.
    change (trim_start (String "-" (digits_string (d :: ds))))
      with (String "-" (digits_string (d :: ds))).
    change (parse_sign (String "-" (digits_string (d :: ds))))
      with (true, digits_string (d :: ds)).
    cbv iota beta. rewrite Hr'.
    simpl digits_string. cbn [parse_digits].
    rewrite digit_value_decimal by exact Hd. simpl default.
    rewrite parse_digits_decimal by exact Hds. reflexivity.
Qed.

Lemma resolve_leading_integer_witness :
  resolve (Some "12abc") (JS.of_Z 9) = JS.of_Z 12
  /\ resolve (Some "-12") (JS.of_Z 9) = SFopp (JS.of_Z 12).
Proof.
  apply (resolve_leading_integer 1 [2%nat] "a" "bc" (JS.of_Z 9)).
  - repeat constructor.
  - reflexivity.
  - discriminate.
  - discriminate.
Defined.
